(** * pipapr.runner: the streaming tile-acquisition pipeline

    A shallow embedding of [src/pipapr/runner.py]: the two pipeline classes
    ([baseRunningPipeline], [clearscopeRunningPipeline]), the tile class
    ([runningTile]) and the part of the Python run time they rely on
    (attribute lookup, method resolution, exceptions, [glob], [os.path.join],
    [re]).

    Conventions of the embedding.
    - A Python object is its attribute dictionary, a [gmap string val]; a
      read of an attribute that was never assigned raises [AttributeError].
    - A method call [self.m(...)] is resolved through the method tables of
      the classes, following the inheritance chain.  The two pipeline classes
      both define [__init__], [run] and [_is_new_tile_available]; these carry
      the class name as a prefix, every other method keeps its bare name.
    - Exceptions are the [Raise] outcome; a [while] loop takes a fuel, the
      number of iterations it may run, and answers [OutOfFuel] when the fuel
      is spent while the loop is still running.
    - The file system is a time line: [timeline w t] lists what the
      instrument has put on disk [t] seconds after the start; [sleep(1)]
      advances the clock by one second and nothing else takes time.  The
      trace records the scans, the waits and the writes, calls and removals
      that matter for the disk.
    - Python floats are modelled by exact rationals.  This is the
      arithmetic of the source as long as no operation rounds: for a tile
      number and a row length of at most six digits, every float the decoder
      computes is a half-integer below 2^52 in magnitude, which a binary64
      float holds exactly, or the quotient [n / ncol], whose ceiling rounding
      does not change.  The statements about the decoder carry these bounds.
    - Strings are strings of bytes, and the model reads them as ASCII: a
      digit is one of 0 to 9, a word character is a letter, a digit or an
      underscore.  This is what Python does on ASCII text; the statements
      about the settings file ask for ASCII lines where the difference
      matters.
    - The pixels, the converter and its output format belong to libraries
      outside the repository.  A call into them is taken to return unless it
      is given nothing to work on; the model keeps which files are read and
      which path is handed to the writer.  The class of an exception that
      such a library raises is not modelled: it is [LibraryError]. *)

From Stdlib Require Import ZArith QArith Qround Qabs Lia Ascii String.
From stdpp Require Import base option list strings gmap pretty.

Local Open Scope string_scope.
Local Open Scope Z_scope.

(** ** Values, exceptions, outcomes *)

#[warnings="-register-all"]
Inductive val :=
  | VNone
  | VBool (b : bool)
  | VInt (z : Z)
  | VFloat (q : Q)
  | VStr (s : string)
  | VList (l : list val)
  | VDict (d : gmap string val)
  | VObj (name : string).

Inductive exn :=
  | AttributeError (name : string)
  | TypeError (msg : string)
  | UnboundLocalError (name : string)
  | KeyError (key : string)
  | IndexError
  | ZeroDivisionError
  | FileNotFoundError (path : string)
  | IsADirectoryError (path : string)
  | LibraryError (callee : string).

Inductive outcome (A : Type) :=
  | Ok (a : A)
  | Raise (e : exn)
  | OutOfFuel.
Arguments Ok {A} a.
Arguments Raise {A} e.
Arguments OutOfFuel {A}.

#[global] Instance outcome_ret : MRet outcome := fun A a => Ok a.
#[global] Instance outcome_bind : MBind outcome := fun A B f m =>
  match m with
  | Ok a => f a
  | Raise e => Raise e
  | OutOfFuel => OutOfFuel
  end.

(** An object is its attribute dictionary. *)
Abbreviation obj := (gmap string val).

Definition getattr (o : obj) (name : string) : outcome val :=
  match o !! name with
  | Some v => Ok v
  | None => Raise (AttributeError name)
  end.

Definition setattr (o : obj) (name : string) (v : val) : obj := <[name := v]> o.

(** A local variable that is read before any assignment reached it. *)
Definition load_local {A} (name : string) (x : option A) : outcome A :=
  match x with
  | Some a => Ok a
  | None => Raise (UnboundLocalError name)
  end.

(** ** Numbers *)

(** The number a value stands for in arithmetic ([bool] is a subtype of
    [int]). *)
Definition number_of (v : val) : option Q :=
  match v with
  | VBool b => Some (inject_Z (if b then 1 else 0))
  | VInt z => Some (inject_Z z)
  | VFloat q => Some q
  | _ => None
  end.

(** An operand that has to be a number; [e] is the error of the operation
    when it is not. *)
Definition as_number (e : exn) (v : val) : outcome Q :=
  match number_of v with
  | Some q => Ok q
  | None => Raise e
  end.

(** The name of the type of a value, as error messages print it. *)
Definition py_type_name (v : val) : string :=
  match v with
  | VNone => "NoneType"
  | VBool _ => "bool"
  | VInt _ => "int"
  | VFloat _ => "float"
  | VStr _ => "str"
  | VList _ => "list"
  | VDict _ => "dict"
  | VObj c => c
  end.

(** The error of a binary operator that neither operand implements. *)
Definition unsupported (op : string) (a b : val) : exn :=
  TypeError ("unsupported operand type(s) for " +:+ op +:+ ": '"
             +:+ py_type_name a +:+ "' and '" +:+ py_type_name b +:+ "'").

(** [numpy.mod]: the remainder has the sign of the divisor. *)
Definition np_mod (a b : Q) : Q := (a - b * inject_Z (Qfloor (a / b)))%Q.

Definition np_ceil (a : Q) : Q := inject_Z (Qceiling a).

(** [int(x)] on a float truncates towards zero. *)
Definition py_int_of_float (a : Q) : Z := Z.quot (Qnum a) (Zpos (Qden a)).

(** ** Strings *)

Definition is_digit (a : ascii) : bool :=
  let n := nat_of_ascii a in (48 <=? n)%nat && (n <=? 57)%nat.

Definition is_word_char (a : ascii) : bool :=
  let n := nat_of_ascii a in
  is_digit a
  || ((65 <=? n)%nat && (n <=? 90)%nat)
  || ((97 <=? n)%nat && (n <=? 122)%nat)
  || (n =? 95)%nat.

Definition digit_value (a : ascii) : Z := Z.of_nat (nat_of_ascii a) - 48.

(** [int(s)] for a string of decimal digits. *)
Definition py_int_of_digits (s : string) : Z :=
  fold_left (fun acc a => 10 * acc + digit_value a) (list_ascii_of_string s) 0.

Definition str_isnumeric (s : string) : bool :=
  match s with
  | EmptyString => false
  | _ => forallb is_digit (list_ascii_of_string s)
  end.

Definition ends_with_slash (s : string) : bool :=
  match rev (list_ascii_of_string s) with
  | a :: _ => Ascii.eqb a "/"
  | [] => false
  end.

(** [os.path.join] of two components (POSIX). *)
Definition path_join (a b : string) : string :=
  match b with
  | String "/" _ => b
  | _ => if String.eqb a "" || ends_with_slash a then a +:+ b else a +:+ "/" +:+ b
  end.

(** The tile directory pattern [\d{6}_\d{6}___\dc] anchored at the start of
    [s]; the answer is the pair of its two possible groups, the six-digit
    tile number and the channel digit. *)
Definition tile_dir_prefix (s : string) : option (string * string) :=
  match list_ascii_of_string (substring 0 18 s) with
  | [a1; a2; a3; a4; a5; a6; u1; b1; b2; b3; b4; b5; b6; u2; u3; u4; d; c] =>
      if forallb is_digit [a1; a2; a3; a4; a5; a6; b1; b2; b3; b4; b5; b6; d]
         && forallb (Ascii.eqb "_") [u1; u2; u3; u4]
         && Ascii.eqb c "c"
      then Some (string_of_list_ascii [b1; b2; b3; b4; b5; b6], String d "")
      else None
  | _ => None
  end.

(** [re.findall]: the groups of the successive, non-overlapping matches,
    leftmost first.  [skip] counts the characters of the last match still to
    be passed over. *)
Fixpoint re_findall {G} (group : string * string -> G) (skip : nat) (s : string)
  : list G :=
  match s with
  | EmptyString => []
  | String _ s' =>
      match skip with
      | S k => re_findall group k s'
      | O =>
          match tile_dir_prefix s with
          | Some g => group g :: re_findall group 17 s'
          | None => re_findall group 0 s'
          end
      end
  end.

(** ** Operators on values *)

Definition as_int (v : val) : option Z :=
  match v with
  | VBool b => Some (if b then 1 else 0)
  | VInt z => Some z
  | _ => None
  end.

(** An arithmetic operator on two numbers: integer arithmetic on integers
    and booleans, float arithmetic as soon as one side is a float; [op] is the
    symbol of the operator, for the error when a side is not a number. *)
Definition py_arith (op : string) (zop : Z -> Z -> Z) (qop : Q -> Q -> Q)
    (a b : val) : outcome val :=
  match as_int a, as_int b with
  | Some x, Some y => Ok (VInt (zop x y))
  | _, _ =>
      x ← as_number (unsupported op a b) a;
      y ← as_number (unsupported op a b) b;
      Ok (VFloat (qop x y))
  end.

(** [a - b] *)
Definition py_sub := py_arith "-" Z.sub Qminus.

(** The double quote, which the messages of [+] print around a type name. *)
Definition double_quote : string := String "034" "".

(** [a + b]: strings and lists are concatenated with their like. *)
Definition py_add (a b : val) : outcome val :=
  match a, b with
  | VStr x, VStr y => Ok (VStr (x +:+ y))
  | VList x, VList y => Ok (VList (x ++ y))
  | VStr _, _ =>
      Raise (TypeError ("can only concatenate str (not " +:+ double_quote
                        +:+ py_type_name b +:+ double_quote +:+ ") to str"))
  | VList _, _ =>
      Raise (TypeError ("can only concatenate list (not " +:+ double_quote
                        +:+ py_type_name b +:+ double_quote +:+ ") to list"))
  | _, _ => py_arith "+" Z.add Qplus a b
  end.

(** A sequence repeated [k] times; none for [k <= 0]. *)
Definition py_repeat {A} (k : Z) (l : list A) : list A :=
  concat (replicate (Z.to_nat k) l).

(** [seq * k] and [k * seq] for a string or a list [seq]: the repetition
    when [k] is an integer, a type error that names the type of [k]
    otherwise. *)
Definition py_repeat_seq (seq k : val) : outcome val :=
  match as_int k with
  | Some n =>
      match seq with
      | VStr s => Ok (VStr (string_of_list_ascii (py_repeat n (list_ascii_of_string s))))
      | VList l => Ok (VList (py_repeat n l))
      | _ => Raise (unsupported "*" seq k)
      end
  | None =>
      Raise (TypeError ("can't multiply sequence by non-int of type '"
                        +:+ py_type_name k +:+ "'"))
  end.

(** [a * b] *)
Definition py_mul (a b : val) : outcome val :=
  match a, b with
  | VStr _, _ | VList _, _ => py_repeat_seq a b
  | _, VStr _ | _, VList _ => py_repeat_seq b a
  | _, _ => py_arith "*" Z.mul Qmult a b
  end.

(** [a < b] on numbers, the only values the pipeline orders. *)
Definition py_lt (a b : val) : outcome bool :=
  let e := TypeError ("'<' not supported between instances of '"
                      +:+ py_type_name a +:+ "' and '" +:+ py_type_name b +:+ "'") in
  x ← as_number e a; y ← as_number e b; Ok (negb (Qle_bool y x)).

(** [a == b] where [b] is a number: what is not a number differs from it. *)
Definition py_eq_number (a : val) (b : Q) : bool :=
  match number_of a with
  | Some x => Qeq_bool x b
  | None => false
  end.

(** [v[i]] for a literal index [i >= 0]. *)
Definition py_getitem (v : val) (i : nat) : outcome val :=
  match v with
  | VList l =>
      match l !! i with
      | Some x => Ok x
      | None => Raise IndexError
      end
  | VStr s =>
      match String.get i s with
      | Some a => Ok (VStr (String a ""))
      | None => Raise IndexError
      end
  | VDict _ => Raise (KeyError (pretty i))
  | _ => Raise (TypeError ("'" +:+ py_type_name v +:+ "' object is not subscriptable"))
  end.

(** Truth value of a condition. *)
Definition py_truthy (v : val) : bool :=
  match v with
  | VNone => false
  | VBool b => b
  | VInt z => negb (z =? 0)
  | VFloat q => negb (Qeq_bool q 0)
  | VStr s => negb (String.eqb s "")
  | VList l => match l with [] => false | _ => true end
  | VDict d => negb (bool_decide (d = ∅))
  | VObj _ => true
  end.

Definition is_none (v : val) : bool :=
  match v with VNone => true | _ => false end.

(** [v is True] *)
Definition is_True (v : val) : bool :=
  match v with VBool true => true | _ => false end.

(** [str(v)] as used by [format], for the values formatted here. *)
Definition py_str (v : val) : string :=
  match v with
  | VNone => "None"
  | VBool b => if b then "True" else "False"
  | VInt z => pretty z
  | VStr s => s
  | _ => "<object>"
  end.

Definition str_of_channel (c : option Z) : string :=
  match c with
  | Some z => pretty z
  | None => "None"
  end.

(** A string attribute used as a path component. *)
Definition as_path (v : val) : outcome string :=
  match v with
  | VStr s => Ok s
  | _ => Raise (TypeError "expected str, bytes or os.PathLike object")
  end.

(** ** The world: clock, disk, trace *)

(** One name on disk: its path, whether it is a directory, and the lines
    [readlines] gives for it. *)
Record entry := {
  e_path : string;
  e_is_dir : bool;
  e_lines : list string
}.

(** What the trace records: a scan by [glob], a [sleep(1)], a directory
    made by [mkdir], a path handed to [pyapr.io.write] (the call, not what
    the library then does on disk), a call of a method of a tile, a file
    removed by [os.remove]. *)
Inductive event :=
  | EvGlob (pattern : string)
  | EvSleep
  | EvMkdir (path : string)
  | EvWrite (path : string)
  | EvCall (method : string) (path : string)
  | EvRemove (path : string).

Record world := {
  now : nat;
  timeline : nat -> list entry;
  trace : list event
}.

Definition was_removed (p : string) (t : list event) : bool :=
  existsb (fun ev => match ev with EvRemove q => String.eqb p q | _ => false end) t.

(** What is on disk now: what the instrument has written so far, less what
    the pipeline removed. *)
Definition on_disk (w : world) : list entry :=
  filter (fun e => negb (was_removed (e_path e) (trace w)) = true)
         (timeline w (now w)).

(** Shell-style matching of a whole path.  [*] stands for any run of
    characters other than [/], and a component that the pattern opens with
    [*] does not match a name with a leading dot; every other character stands
    for itself (the patterns of the pipeline use no other wildcard).  [start]
    tells whether the next character opens a component. *)
Fixpoint wildcard_match (pat : string) : bool -> string -> bool :=
  match pat with
  | EmptyString => fun _ s => match s with EmptyString => true | _ => false end
  | String "*" pat' =>
      fix star (start : bool) (s : string) : bool :=
        match s with
        | EmptyString => wildcard_match pat' start s
        | String a s' =>
            if start && Ascii.eqb a "." then false
            else wildcard_match pat' start s
                 || (if Ascii.eqb a "/" then false else star false s')
        end
  | String p pat' => fun _ s =>
      match s with
      | EmptyString => false
      | String a s' => Ascii.eqb a p && wildcard_match pat' (Ascii.eqb a "/") s'
      end
  end.

Definition strip_trailing_slash (s : string) : option string :=
  match rev (list_ascii_of_string s) with
  | a :: r => if Ascii.eqb a "/" then Some (string_of_list_ascii (rev r)) else None
  | [] => None
  end.

(** The paths [glob.glob(pattern)] answers, in the order the directory
    listing gives them; a pattern that ends in [/] selects directories and
    answers them with the trailing separator. *)
Definition glob_paths (pattern : string) (w : world) : list string :=
  match strip_trailing_slash pattern with
  | Some pat =>
      map (fun e => e_path e +:+ "/")
          (filter (fun e => e_is_dir e && wildcard_match pat true (e_path e) = true)
                  (on_disk w))
  | None =>
      map e_path
          (filter (fun e => wildcard_match pattern true (e_path e) = true) (on_disk w))
  end.

(** ** The clearscope coordinate decoder

    [_get_row_col] and [_get_channel] are defined by the clearscope class
    alone.  They only read [self]. *)

(** [clearscopeRunningPipeline._get_row_col].  The local [n] is bound only
    when the pattern was found.  The arithmetic is done on the numbers the
    operands stand for, without rounding: this is the arithmetic of the
    source for a row length of at most six digits, where the only float that
    is not held exactly is the quotient [n / ncol], whose ceiling is that of
    the exact quotient.  The first operation that needs [self.ncol] to be a
    number is [n - self.ncol]; the line that computes [col] does not raise
    otherwise, the line that computes [row] divides by [self.ncol]. *)
Definition _get_row_col (self : obj) (path : string) : outcome (Z * Z) :=
  let pattern_search := re_findall fst 0 path in
  let n : option Z :=
    match pattern_search with
    | [] => None
    | s :: _ => Some (py_int_of_digits s)
    end in
  n ← load_local "n" n;
  ncol ← getattr self "ncol" ≫= (fun v => as_number (unsupported "-" (VInt n) v) v);
  let col :=
    (Qabs (np_mod (inject_Z n - ncol - 1) (2 * ncol) - ncol + (1#2)) + (1#2))%Q in
  if Qeq_bool ncol 0 then Raise ZeroDivisionError else
  let row := np_ceil (inject_Z n / ncol) in
  let col := py_int_of_float (col - 1) in
  let row := py_int_of_float (row - 1) in
  Ok (row, col).

(** [clearscopeRunningPipeline._get_channel]; the function ends without a
    [return] when nothing matched, which is [None]. *)
Definition _get_channel (self : obj) (path : string) : outcome (option Z) :=
  let pattern_search := re_findall snd 0 path in
  match pattern_search with
  | s :: _ => Ok (Some (py_int_of_digits s))
  | [] => Ok None
  end.

(** ** Classes and method resolution *)

(** [cls_base] is [baseRunningPipeline], [cls_clearscope] is
    [clearscopeRunningPipeline(baseRunningPipeline)]. *)
Inductive cls := cls_base | cls_clearscope.

(** The methods each class body defines, in source order. *)
Definition class_methods (c : cls) : list string :=
  match c with
  | cls_base =>
      ["__init__"; "run"; "set_compression"; "deactivate_compression";
       "activate_conversion"; "activate_stitching"; "_check_conversion";
       "_convert_to_apr"; "_is_new_tile_available"; "_update_next_tile";
       "_get_tile"]
  | cls_clearscope =>
      ["__init__"; "run"; "_parse_acquisition_settings";
       "_is_new_tile_available"; "_get_row_col"; "_get_channel"]
  end.

(** Method resolution order. *)
Definition mro (c : cls) : list cls :=
  match c with
  | cls_base => [cls_base]
  | cls_clearscope => [cls_clearscope; cls_base]
  end.

(** The class whose definition of [m] an instance of [c] runs. *)
Definition resolve (c : cls) (m : string) : option cls :=
  find (fun d => existsb (String.eqb m) (class_methods d)) (mro c).

(** ** The state of a run and its monad *)

Record pstate := {
  self : obj;
  klass : cls;
  env : world
}.

Definition M (A : Type) : Type := pstate -> outcome A * pstate.

#[global] Instance M_ret : MRet M := fun A a st => (Ok a, st).
#[global] Instance M_bind : MBind M := fun A B f m st =>
  match m st with
  | (Ok a, st') => f a st'
  | (Raise e, st') => (Raise e, st')
  | (OutOfFuel, st') => (OutOfFuel, st')
  end.

Definition lift {A} (o : outcome A) : M A := fun st => (o, st).
Definition raise {A} (e : exn) : M A := lift (Raise e).
Definition out_of_fuel {A} : M A := lift OutOfFuel.

Definition self_get (name : string) : M val :=
  fun st => (getattr (self st) name, st).

Definition self_set (name : string) (v : val) : M unit :=
  fun st => (Ok tt, {| self := setattr (self st) name v;
                       klass := klass st; env := env st |}).

(** A method that only reads [self]. *)
Definition self_call {A} (f : obj -> outcome A) : M A :=
  fun st => (f (self st), st).

Definition bound_method (m : string) : M cls :=
  fun st => match resolve (klass st) m with
            | Some d => (Ok d, st)
            | None => (Raise (AttributeError m), st)
            end.

Definition emit (ev : event) : M unit :=
  fun st => (Ok tt, {| self := self st; klass := klass st;
                       env := {| now := now (env st);
                                 timeline := timeline (env st);
                                 trace := trace (env st) ++ [ev] |} |}).

(** [time.sleep(1)] *)
Definition sleep : M unit :=
  fun st => (Ok tt, {| self := self st; klass := klass st;
                       env := {| now := S (now (env st));
                                 timeline := timeline (env st);
                                 trace := trace (env st) ++ [EvSleep] |} |}).

Definition get_env : M world := fun st => (Ok (env st), st).

(** [glob.glob(pattern)] *)
Definition glob (pattern : string) : M (list string) :=
  w ← get_env;
  _ ← emit (EvGlob pattern);
  mret (glob_paths pattern w).

Definition exists_on_disk (p : string) (w : world) : bool :=
  existsb (fun e => String.eqb (e_path e) p) (on_disk w).

(** Reading a file with [imread] or [numpy.fromfile]: the pixels are
    abstract, what matters is that the file is there. *)
Definition read_file (p : string) : M unit :=
  fun st => if exists_on_disk p (env st) then (Ok tt, st)
            else (Raise (FileNotFoundError p), st).

(** Reading a file with [pyapr]: as above, but what the library raises for
    a file that is not there is its own business. *)
Definition pyapr_read (callee : string) (p : string) : M unit :=
  fun st => if exists_on_disk p (env st) then (Ok tt, st)
            else (Raise (LibraryError callee), st).

(** [open(path).readlines()] *)
Definition readlines (p : string) : M (list string) :=
  fun st => match find (fun e => String.eqb (e_path e) p) (on_disk (env st)) with
            | Some e => (Ok (e_lines e), st)
            | None => (Raise (FileNotFoundError p), st)
            end.

(** [os.remove(path)]: it removes a file, and refuses a directory. *)
Definition os_remove (p : string) : M unit :=
  fun st => match find (fun e => String.eqb (e_path e) p) (on_disk (env st)) with
            | Some e =>
                if e_is_dir e then (Raise (IsADirectoryError p), st)
                else emit (EvRemove p) st
            | None => (Raise (FileNotFoundError p), st)
            end.

Fixpoint mapM {A B} (f : A -> M B) (l : list A) : M (list B) :=
  match l with
  | [] => mret []
  | x :: l' => y ← f x; ys ← mapM f l'; mret (y :: ys)
  end.

(** [sorted] on strings *)
Fixpoint insert_sorted (x : string) (l : list string) : list string :=
  match l with
  | [] => [x]
  | y :: l' => if String.leb x y then x :: l else y :: insert_sorted x l'
  end.

Definition sorted (l : list string) : list string :=
  foldr insert_sorted [] l.

(** ** runningTile *)

(** The attributes of a tile the pipeline reads or writes.  The neighbour
    attributes are all [None] for a tile made by the pipeline and are left
    out.  [t_data] and [t_apr] list the files whose content was loaded. *)
Record runningTile := {
  t_path : string;
  t_row : Z;
  t_col : Z;
  t_type : val;
  t_frame_size : Z;
  t_folder_root : val;
  t_channel : option Z;
  t_n_channels : val;
  t_data : option (list string);
  t_apr : option (list string)
}.

Definition set_data (t : runningTile) (d : list string) : runningTile :=
  {| t_path := t_path t; t_row := t_row t; t_col := t_col t;
     t_type := t_type t; t_frame_size := t_frame_size t;
     t_folder_root := t_folder_root t; t_channel := t_channel t;
     t_n_channels := t_n_channels t; t_data := Some d; t_apr := t_apr t |}.

Definition set_apr (t : runningTile) (d : list string) : runningTile :=
  {| t_path := t_path t; t_row := t_row t; t_col := t_col t;
     t_type := t_type t; t_frame_size := t_frame_size t;
     t_folder_root := t_folder_root t; t_channel := t_channel t;
     t_n_channels := t_n_channels t; t_data := t_data t; t_apr := Some d |}.

(** [v == s] for a string literal [s] *)
Definition str_is (v : val) (s : string) : bool :=
  match v with
  | VStr x => String.eqb x s
  | _ => false
  end.

(** [runningTile._load_raw] *)
Definition _load_raw (t : runningTile) (path : string) : M (list string) :=
  _ ← read_file path; mret [path].

(** [runningTile._load_colm] *)
Definition _load_colm (t : runningTile) (path : string) : M (list string) :=
  files ← glob (path_join path ("*CHN0" +:+ str_of_channel (t_channel t) +:+ "_*tif"));
  let files_sorted := sorted files in
  _ ← mapM read_file files_sorted;
  mret files_sorted.

(** [runningTile._load_clearscope] *)
Definition _load_clearscope (t : runningTile) (path : string) : M (list string) :=
  files ← glob (path_join (t_path t) "*");
  let files_sorted := sorted files in
  _ ← mapM read_file files_sorted;
  mret files_sorted.

(** [runningTile._load_data] *)
Definition _load_data (t : runningTile) (path : string) : M (list string) :=
  if str_is (t_type t) "colm" then _load_colm t path
  else if str_is (t_type t) "clearscope" then _load_clearscope t path
  else if str_is (t_type t) "tiff3D" then (_ ← read_file path; mret [path])
  else if str_is (t_type t) "apr" then (_ ← pyapr_read "pyapr.io.read" path; mret [path])
  else if str_is (t_type t) "raw" then _load_raw t path
  else raise (TypeError ("Error: image type " +:+ py_str (t_type t)
                         +:+ " not supported.")).

(** [runningTile.load_tile] *)
Definition load_tile (t : runningTile) : M runningTile :=
  if str_is (t_type t) "apr" then
    match t_apr t with
    | None => u ← _load_data t (t_path t); mret (set_apr t u)
    | Some _ => mret t
    end
  else
    match t_data t with
    | None => u ← _load_data t (t_path t); mret (set_data t u)
    | Some _ => mret t
    end.

(** [runningTile._erase_from_disk]; each call leaves a mark in the trace. *)
Definition _erase_from_disk (t : runningTile) : M unit :=
  _ ← emit (EvCall "_erase_from_disk" (t_path t));
  if str_is (t_type t) "tiff3D" then os_remove (t_path t) else mret tt.

(** ** Methods defined by baseRunningPipeline *)

(** [baseRunningPipeline.__init__(path, nrow, ncol, n_channels, ftype)] *)
Definition baseRunningPipeline___init__
    (path : string) (nrow ncol : Z) (n_channels : Z) (ftype : string) : M unit :=
  _ ← self_set "path" (VStr path);
  _ ← self_set "next_tile" (VList [VInt 0; VInt 0]);
  _ ← self_set "frame_size" (VInt 2048);
  _ ← self_set "tile_processed" (VInt 0);
  _ ← self_set "nrow" (VInt nrow);
  _ ← self_set "ncol" (VInt ncol);
  _ ← self_set "n_tiles" (VInt (nrow * ncol));
  _ ← self_set "current_tile" VNone;
  _ ← self_set "type" (VStr ftype);
  _ ← self_set "n_channels" (VInt n_channels);
  _ ← self_set "converter" VNone;
  _ ← self_set "lazy_loading" VNone;
  _ ← self_set "compression" (VBool false);
  _ ← self_set "bg" VNone;
  _ ← self_set "quantization_factor" VNone;
  _ ← self_set "folder_apr" VNone;
  _ ← self_set "stitcher" VNone;
  _ ← self_set "overlap_h" VNone;
  _ ← self_set "overlap_v" VNone;
  _ ← self_set "n_vertex" VNone;
  self_set "folder_max_projs" VNone.

(** [set_compression(quantization_factor, bg)] *)
Definition set_compression (quantization_factor bg : Z) : M unit :=
  _ ← self_set "compression" (VBool true);
  _ ← self_set "bg" (VInt bg);
  self_set "quantization_factor" (VInt quantization_factor).

(** [deactivate_compression()] *)
Definition deactivate_compression : M unit :=
  _ ← self_set "compression" (VBool false);
  _ ← self_set "bg" VNone;
  self_set "quantization_factor" VNone.


(** [activate_stitching(overlap_h, overlap_v)] *)
Definition activate_stitching (overlap_h overlap_v : Z) : M unit :=
  _ ← self_set "overlap_h" (VInt overlap_h);
  _ ← self_set "overlap_v" (VInt overlap_v);
  _ ← self_set "stitcher" (VBool true);
  p ← self_get "path" ≫= (fun v => lift (as_path v));
  _ ← self_set "folder_max_projs" (VStr (path_join p "max_projs"));
  emit (EvMkdir (path_join p "max_projs")).

(** The statement of [_check_conversion] that follows the assignment of the
    local [conversion_ok]. *)
Definition erase_if (conversion_ok : bool) (tile : runningTile) : M unit :=
  if conversion_ok then _erase_from_disk tile else mret tt.

(** [_check_conversion(tile)] *)
Definition _check_conversion (tile : runningTile) : M unit :=
  let conversion_ok := false in
  erase_if conversion_ok tile.

(** [_convert_to_apr(tile)].  The conversion is done by [pyapr]: the
    converter is given [tile.data] and has to be given some; its calls are
    then taken to return.  The last statement hands to [pyapr.io.write] a
    path under [folder_apr]; no statement makes the directory of that
    path. *)
Definition _convert_to_apr (tile : runningTile) : M unit :=
  conv ← self_get "converter";
  _ ← (if is_none conv then raise (AttributeError "get_apr") else mret tt);
  _ ← (match t_data tile with
       | Some _ => mret tt
       | None => raise (LibraryError "get_apr")
       end);
  compression ← self_get "compression";
  _ ← (if py_truthy compression
       then (_ ← self_get "quantization_factor"; _ ← self_get "bg"; mret tt)
       else mret tt);
  _ ← self_get "lazy_loading";
  let filename := pretty (t_row tile) +:+ "_" +:+ pretty (t_col tile) +:+ ".apr" in
  folder ← self_get "folder_apr" ≫= (fun v => lift (as_path v));
  emit (EvWrite (path_join (path_join folder ("ch" +:+ str_of_channel (t_channel tile)))
                           filename)).

(** What [_is_new_tile_available] hands back: a pair, or [None] when the
    body ends without reaching a [return]. *)
Inductive pyret :=
  | RNone
  | RPair (is_available : bool) (tile : option runningTile).

(** [is_available, tile = r] *)
Definition unpack (r : pyret) : M (bool * option runningTile) :=
  match r with
  | RPair b t => mret (b, t)
  | RNone => raise (TypeError "cannot unpack non-iterable NoneType object")
  end.

(** [self.m(...)] for a method that only [cls_base] may define, and for one
    that only [cls_clearscope] may define. *)
Definition call_base {A} (m : string) (body : M A) : M A :=
  d ← bound_method m;
  match d with
  | cls_base => body
  | cls_clearscope => raise (AttributeError m)
  end.

Definition call_clearscope {A} (m : string) (body : M A) : M A :=
  d ← bound_method m;
  match d with
  | cls_clearscope => body
  | cls_base => raise (AttributeError m)
  end.

(** [baseRunningPipeline._get_tile(path)] *)
Definition _get_tile (path : string) : M runningTile :=
  '(row, col) ← call_clearscope "_get_row_col" (self_call (fun s => _get_row_col s path));
  channel ← call_clearscope "_get_channel" (self_call (fun s => _get_channel s path));
  ftype ← self_get "type";
  folder_root ← self_get "path";
  n_channels ← self_get "n_channels";
  mret {| t_path := path; t_row := row; t_col := col; t_type := ftype;
          t_frame_size := 2048; t_folder_root := folder_root;
          t_channel := channel; t_n_channels := n_channels;
          t_data := None; t_apr := None |}.

(** [baseRunningPipeline._is_new_tile_available()] *)
Definition baseRunningPipeline__is_new_tile_available : M pyret :=
  p ← self_get "path";
  a ← self_get "next_tile" ≫= (fun v => lift (py_getitem v 0));
  b ← self_get "next_tile" ≫= (fun v => lift (py_getitem v 1));
  p ← lift (as_path p);
  path ← glob (path_join p (py_str a +:+ "_" +:+ py_str b +:+ ".tif"));
  match path with
  | [] => mret (RPair false None)
  | [path0] =>
      a ← self_get "next_tile" ≫= (fun v => lift (py_getitem v 0));
      b ← self_get "next_tile" ≫= (fun v => lift (py_getitem v 1));
      _ ← self_set "current_tile" (VList [a; b]);
      tile ← call_base "_get_tile" (_get_tile path0);
      mret (RPair true (Some tile))
  | _ => raise (TypeError "Error: glob returned one than one file.")
  end.

(** [baseRunningPipeline._update_next_tile()] *)
Definition _update_next_tile : M unit :=
  c1 ← self_get "current_tile" ≫= (fun v => lift (py_getitem v 1));
  n_col ← self_get "n_col";
  last ← lift (py_sub n_col (VInt 1)
               ≫= as_number (unsupported "-" n_col (VInt 1)));
  if py_eq_number c1 last then
    c0 ← self_get "current_tile" ≫= (fun v => lift (py_getitem v 0));
    r ← lift (py_add c0 (VInt 1));
    self_set "next_tile" (VList [r; VInt 0])
  else
    c0 ← self_get "current_tile" ≫= (fun v => lift (py_getitem v 0));
    c1 ← self_get "current_tile" ≫= (fun v => lift (py_getitem v 1));
    c ← lift (py_add c1 (VInt 1));
    self_set "next_tile" (VList [c0; c]).

(** ** Methods defined by clearscopeRunningPipeline *)

(** The longest prefix of word characters, and what follows it. *)
Fixpoint span_word (s : string) : string * string :=
  match s with
  | EmptyString => ("", "")
  | String a s' =>
      if is_word_char a
      then let '(w, r) := span_word s' in (String a w, r)
      else ("", s)
  end.

Definition strip_prefix (p s : string) : option string :=
  if String.prefix p s
  then Some (substring (String.length p) (String.length s - String.length p)%nat s)
  else None.

(** The second group and the end anchor of the settings pattern: the rest
    of the line holds no newline except possibly one that ends it, and the
    group is the rest without that newline. *)
Fixpoint rest_of_line (s : string) : option string :=
  match s with
  | EmptyString => Some ""
  | String a s' =>
      if Ascii.eqb a "010"
      then match s' with EmptyString => Some "" | _ => None end
      else String a <$> rest_of_line s'
  end.

(** [re.match] of the settings pattern on a line: a run of word characters,
    the three characters space, equals sign, space, then the rest of the
    line; the answer is the two groups. *)
Definition match_setting (l : string) : option (string * string) :=
  let '(key, r) := span_word l in
  r ← strip_prefix " = " r;
  value ← rest_of_line r;
  Some (key, value).

(** One pass of the loop over the lines of the settings file. *)
Definition store_setting (acq_param : gmap string val) (l : string)
  : gmap string val :=
  match match_setting l with
  | Some (key, value) =>
      if str_isnumeric value
      then <[key := VFloat (inject_Z (py_int_of_digits value))]> acq_param
      else if String.eqb value "True" then <[key := VBool true]> acq_param
      else if String.eqb value "False" then <[key := VBool false]> acq_param
      else <[key := VStr value]> acq_param
  | None => acq_param
  end.

(** [d[key]] *)
Definition dict_get (d : gmap string val) (key : string) : outcome val :=
  match d !! key with
  | Some v => Ok v
  | None => Raise (KeyError key)
  end.

(** The [while files == []] loop of [_parse_acquisition_settings]. *)
Fixpoint wait_for_settings (fuel : nat) (files : list string) : M (list string) :=
  match files, fuel with
  | _ :: _, _ => mret files
  | [], O => out_of_fuel
  | [], S fuel' =>
      _ ← sleep;
      p ← self_get "path" ≫= (fun v => lift (as_path v));
      files ← glob (path_join (path_join p "0001") "*_AcquireSettings.txt");
      wait_for_settings fuel' files
  end.

(** [clearscopeRunningPipeline._parse_acquisition_settings()] *)
Definition _parse_acquisition_settings (fuel : nat) : M (val * val) :=
  p ← self_get "path" ≫= (fun v => lift (as_path v));
  files ← glob (path_join p "*_AcquireSettings.txt");
  files ← wait_for_settings fuel files;
  path ← lift (py_getitem (VList (VStr <$> files)) 0 ≫= as_path);
  lines ← readlines path;
  let acq_param := foldl store_setting ∅ lines in
  _ ← self_set "acq_param" (VDict acq_param);
  nrow ← lift (dict_get acq_param "ScanGridY");
  ncol ← lift (dict_get acq_param "ScanGridY");
  n_planes ← lift (dict_get acq_param "StackDepths");
  mret (nrow, ncol).

(** [clearscopeRunningPipeline.__init__(path, n_channels)] *)
Definition clearscopeRunningPipeline___init__
    (fuel : nat) (path : string) (n_channels : Z) : M unit :=
  _ ← self_set "path" (VStr (path_join path "0001"));
  _ ← self_set "acq_param" VNone;
  '(nrow, ncol) ← call_clearscope "_parse_acquisition_settings"
                    (_parse_acquisition_settings fuel);
  _ ← self_set "nrow" nrow;
  _ ← self_set "ncol" ncol;
  _ ← self_set "frame_size" (VInt 2048);
  _ ← self_set "tile_processed" (VInt 0);
  n_tiles ← (nrow ← self_get "nrow"; ncol ← self_get "ncol"; lift (py_mul nrow ncol));
  _ ← self_set "n_tiles" n_tiles;
  _ ← self_set "type" (VStr "clearscope");
  _ ← self_set "n_channels" (VInt n_channels);
  _ ← self_set "buffer_tile_to_be_processed" (VList []);
  _ ← self_set "converter" VNone;
  _ ← self_set "lazy_loading" VNone;
  _ ← self_set "compression" (VBool false);
  _ ← self_set "bg" VNone;
  _ ← self_set "quantization_factor" VNone;
  _ ← self_set "folder_apr" VNone;
  _ ← self_set "stitcher" VNone;
  _ ← self_set "overlap_h" VNone;
  _ ← self_set "overlap_v" VNone;
  _ ← self_set "n_vertex" VNone;
  self_set "folder_max_projs" VNone.

(** [self.buffer_tile_to_be_processed.extend(paths)] *)
Definition buffer_extend (paths : list string) : M unit :=
  buf ← self_get "buffer_tile_to_be_processed";
  match buf with
  | VList l => self_set "buffer_tile_to_be_processed" (VList (l ++ (VStr <$> paths)))
  | _ => raise (AttributeError "extend")
  end.

(** [self.buffer_tile_to_be_processed.pop(0)] *)
Definition buffer_pop0 : M unit :=
  buf ← self_get "buffer_tile_to_be_processed";
  match buf with
  | VList (_ :: l) => self_set "buffer_tile_to_be_processed" (VList l)
  | VList [] => raise IndexError
  | _ => raise (AttributeError "pop")
  end.

(** [v == []] *)
Definition is_empty_list (v : val) : bool :=
  match v with VList [] => true | _ => false end.

(** [clearscopeRunningPipeline._is_new_tile_available()] *)
Definition clearscopeRunningPipeline__is_new_tile_available : M pyret :=
  p ← self_get "path" ≫= (fun v => lift (as_path v));
  paths ← glob (path_join p "000000_*_*c/");
  _ ← buffer_extend paths;
  buf ← self_get "buffer_tile_to_be_processed";
  if is_empty_list buf then mret (RPair false None)
  else
    match paths with
    | path :: _ =>
        tile ← call_base "_get_tile" (_get_tile path);
        mret (RPair true (Some tile))
    | [] => mret RNone
    end.

(** ** The run loops *)

(** [self._is_new_tile_available()], resolved on the class of [self]. *)
Definition call__is_new_tile_available : M pyret :=
  d ← bound_method "_is_new_tile_available";
  match d with
  | cls_base => baseRunningPipeline__is_new_tile_available
  | cls_clearscope => clearscopeRunningPipeline__is_new_tile_available
  end.

(** [self._pre_stitch(tile)]: no class defines [_pre_stitch], the lookup of
    the method is all there is to run. *)
Definition call__pre_stitch (tile : runningTile) : M unit :=
  d ← bound_method "_pre_stitch";
  match d with
  | cls_base | cls_clearscope => raise (AttributeError "_pre_stitch")
  end.

(** The statements both loops run on an available tile, up to and including
    [self.tile_processed += 1]. *)
Definition process_tile (tile : option runningTile) : M unit :=
  tile ← match tile with
         | Some t => mret t
         | None => raise (AttributeError "path")
         end;
  tile ← load_tile tile;
  converter ← self_get "converter";
  _ ← (if negb (is_none converter)
       then (_ ← call_base "_convert_to_apr" (_convert_to_apr tile);
             call_base "_check_conversion" (_check_conversion tile))
       else mret tt);
  stitcher ← self_get "stitcher";
  _ ← (if is_True stitcher then call__pre_stitch tile else mret tt);
  _ ← call_base "_update_next_tile" _update_next_tile;
  n ← self_get "tile_processed" ≫= (fun v => lift (py_add v (VInt 1)));
  self_set "tile_processed" n.

(** [self.tile_processed < self.n_tiles] *)
Definition more_tiles : M bool :=
  a ← self_get "tile_processed";
  b ← self_get "n_tiles";
  lift (py_lt a b).

(** [baseRunningPipeline.run()] *)
Fixpoint baseRunningPipeline_run (fuel : nat) : M unit :=
  match fuel with
  | O => out_of_fuel
  | S fuel' =>
      continue ← more_tiles;
      if continue : bool then
        r ← call__is_new_tile_available;
        '(is_available, tile) ← unpack r;
        _ ← (if is_available : bool then process_tile tile else sleep);
        baseRunningPipeline_run fuel'
      else mret tt
  end.

(** [clearscopeRunningPipeline.run()] *)
Fixpoint clearscopeRunningPipeline_run (fuel : nat) : M unit :=
  match fuel with
  | O => out_of_fuel
  | S fuel' =>
      continue ← more_tiles;
      if continue : bool then
        r ← call__is_new_tile_available;
        '(is_available, tile) ← unpack r;
        _ ← (if is_available : bool
             then (_ ← process_tile tile; buffer_pop0)
             else sleep);
        clearscopeRunningPipeline_run fuel'
      else mret tt
  end.

(** [self.run()], resolved on the class of [self]. *)
Definition run (fuel : nat) : M unit :=
  d ← bound_method "run";
  match d with
  | cls_base => baseRunningPipeline_run fuel
  | cls_clearscope => clearscopeRunningPipeline_run fuel
  end.

(** A fresh instance of class [c] in world [w], before [__init__]. *)
Definition new (c : cls) (w : world) : pstate :=
  {| self := ∅; klass := c; env := w |}.

(** ** More of runningTile: lazy loading and neighbours *)

(** The attributes of a tile that only these methods use: the paths of the
    neighbours, what was loaded for them, and the lazy view of the tile
    (its path and [level_delta]). *)
Record tileAux := {
  neighbors_path : option (list string);
  data_neighbors : option (list (list string));
  apr_neighbors : option (list (list string));
  parts_neighbors : option (list (list string));
  lazy_data : option (string * Z)
}.

(** The attributes as [runningTile.__init__] leaves them, for the
    [neighbors_path] it is given. *)
Definition tile_aux_init (paths : option (list string)) : tileAux :=
  {| neighbors_path := paths; data_neighbors := None; apr_neighbors := None;
     parts_neighbors := None; lazy_data := None |}.

(** [for path_neighbor in self.neighbors_path] *)
Definition iterate (paths : option (list string)) : M (list string) :=
  match paths with
  | Some l => mret l
  | None => raise (TypeError "'NoneType' object is not iterable")
  end.

(** [runningTile.lazy_load_tile(level_delta)] *)
Definition lazy_load_tile (t : runningTile) (x : tileAux) (level_delta : Z)
  : M tileAux :=
  if negb (str_is (t_type t) "apr")
  then raise (TypeError "Error: lazy loading is only supported for APR data.")
  else mret {| neighbors_path := neighbors_path x;
               data_neighbors := data_neighbors x;
               apr_neighbors := apr_neighbors x;
               parts_neighbors := parts_neighbors x;
               lazy_data := Some (t_path t, level_delta) |}.

(** [runningTile.load_neighbors()] *)
Definition load_neighbors (t : runningTile) (x : tileAux) : M tileAux :=
  match data_neighbors x with
  | None =>
      if str_is (t_type t) "apr" then
        paths ← iterate (neighbors_path x);
        loaded ← mapM (_load_data t) paths;
        mret {| neighbors_path := neighbors_path x;
                data_neighbors := data_neighbors x;
                apr_neighbors := Some loaded;
                parts_neighbors := Some loaded;
                lazy_data := lazy_data x |}
      else
        paths ← iterate (neighbors_path x);
        u ← mapM (_load_data t) paths;
        mret {| neighbors_path := neighbors_path x;
                data_neighbors := Some u;
                apr_neighbors := apr_neighbors x;
                parts_neighbors := parts_neighbors x;
                lazy_data := lazy_data x |}
  | Some _ => mret x
  end.

(** [self.apr_neighbors[i]] *)
Definition neighbor_apr (x : tileAux) (i : nat) : M (list string) :=
  match apr_neighbors x with
  | None => raise (TypeError "'NoneType' object is not subscriptable")
  | Some l =>
      match l !! i with
      | Some a => mret a
      | None => raise IndexError
      end
  end.

(** The connected components read from a file: the particles of its data
    set ['segmentation cc'], not the particles [_load_data] reads. *)
Definition cc_of (path : string) : list string := [path; "segmentation cc"].

(** The body of the loop of [load_neighbors_segmentation] over
    [enumerate(self.neighbors_path)], from index [i] on: the tree of each
    neighbour, then its connected components. *)
Fixpoint load_neighbors_cc (x : tileAux) (load_tree : bool) (i : nat)
    (paths : list string) : M (list (list string) * list (list string)) :=
  match paths with
  | [] => mret ([], [])
  | path_neighbor :: rest =>
      apr ← (if negb load_tree then neighbor_apr x i else mret []);
      _ ← pyapr_read "pyapr.io.APRFile.open" path_neighbor;
      let apr := if load_tree then [path_neighbor] else apr in
      '(aprs, ccs) ← load_neighbors_cc x load_tree (S i) rest;
      mret (apr :: aprs, cc_of path_neighbor :: ccs)
  end.

(** [runningTile.load_neighbors_segmentation(load_tree)] *)
Definition load_neighbors_segmentation (t : runningTile) (x : tileAux)
    (load_tree : bool) : M tileAux :=
  match data_neighbors x with
  | None =>
      if str_is (t_type t) "apr" then
        paths ← iterate (neighbors_path x);
        '(aprs, ccs) ← load_neighbors_cc x load_tree 0 paths;
        mret {| neighbors_path := neighbors_path x;
                data_neighbors := data_neighbors x;
                apr_neighbors := Some aprs;
                parts_neighbors := Some ccs;
                lazy_data := lazy_data x |}
      else
        paths ← iterate (neighbors_path x);
        u ← mapM (_load_data t) paths;
        mret {| neighbors_path := neighbors_path x;
                data_neighbors := Some u;
                apr_neighbors := apr_neighbors x;
                parts_neighbors := parts_neighbors x;
                lazy_data := lazy_data x |}
  | Some _ => mret x
  end.

(** ** Vocabulary of the statements *)

(** A path embeds the tile number [n] when the first match of the tile
    directory pattern in it carries the digits of [n]. *)
Definition embeds (path : string) (n : Z) : Prop :=
  exists s rest, re_findall fst 0 path = s :: rest /\ py_int_of_digits s = n.

(** The column of tile [n] in a serpentine scan of rows of [c] tiles. *)
Definition serpentine_col (c n : Z) : Z :=
  let j := (n - 1) mod c in
  if Z.even ((n - 1) / c) then j else c - 1 - j.

(** The tile number acquired at cell [(r, k)]. *)
Definition serpentine_index (c r k : Z) : Z :=
  r * c + 1 + (if Z.even r then k else c - 1 - k).

Definition digit_char (d : Z) : ascii := ascii_of_nat (48 + Z.to_nat d).

(** The name the instrument gives to the directory of tile [n], channel
    [ch]. *)
Definition tile_dirname (n ch : Z) : string :=
  string_of_list_ascii
    ["0"; "0"; "0"; "0"; "0"; "0"; "_";
     digit_char (n / 100000 mod 10); digit_char (n / 10000 mod 10);
     digit_char (n / 1000 mod 10); digit_char (n / 100 mod 10);
     digit_char (n / 10 mod 10); digit_char (n mod 10);
     "_"; "_"; "_"; digit_char ch; "c"]%char.

(** An event that erases: a call of [_erase_from_disk] or an [os.remove]. *)
Definition erases (ev : event) : bool :=
  match ev with
  | EvCall _ _ | EvRemove _ => true
  | _ => false
  end.

(** [m] is quiet: whatever it answers, it only appends events that do not
    erase, and it leaves the time line alone. *)
Definition quiet {A} (m : M A) : Prop :=
  forall st, exists evs,
    trace (env (snd (m st))) = (trace (env st) ++ evs)%list
    /\ forallb (fun ev => negb (erases ev)) evs = true
    /\ timeline (env (snd (m st))) = timeline (env st).

(** [m] leaves the attributes of [self] as they are. *)
Definition reads_only {A} (m : M A) : Prop :=
  forall st, self (snd (m st)) = self st.

(** The scans of the settings loop after the first one. *)
Definition retry_events (root : string) (n : nat) : list event :=
  concat (replicate n [EvSleep;
                       EvGlob (path_join (path_join root "0001")
                                         "*_AcquireSettings.txt")]).


(** The path of the tile a poll answered, if it answered one. *)
Definition answered (r : outcome pyret) : option string :=
  match r with
  | Ok (RPair true (Some t)) => Some (t_path t)
  | _ => None
  end.


(** The string has no three underscores in a row. *)
Fixpoint no_triple_underscore (s : string) : bool :=
  match s with
  | EmptyString => true
  | String a s' =>
      negb (Ascii.eqb a "_"
            && match s' with
               | String b (String c _) => Ascii.eqb b "_" && Ascii.eqb c "_"
               | _ => false
               end)
      && no_triple_underscore s'
  end.

(** A tile directory name followed by the separator, by its characters: six
    digits of the tile number and the digit of the channel. *)
Definition name_slash (c1 c2 c3 c4 c5 c6 c7 : ascii) : string :=
  string_of_list_ascii
    ["0"; "0"; "0"; "0"; "0"; "0"; "_"; c1; c2; c3; c4; c5; c6;
     "_"; "_"; "_"; c7; "c"; "/"]%char.

(** No scan for [pattern] ever finds anything on a disk with the time line
    [tl], at whatever time it is made. *)
Definition never_found (pattern : string) (tl : nat -> list entry) : Prop :=
  forall w, timeline w = tl -> glob_paths pattern w = [].

(** The events of [n] polls that found nothing, each followed by a wait. *)
Definition idle_events (pattern : string) (n : nat) : list event :=
  concat (replicate n [EvGlob pattern; EvSleep]).

(** A line of ASCII text: every byte is below 128.  On such a line a
    character is numeric for [str.isnumeric] exactly when it is one of the
    digits 0 to 9, and [float] reads every run of digits. *)
Definition is_ascii (s : string) : bool :=
  forallb (fun a => (nat_of_ascii a <? 128)%nat) (list_ascii_of_string s).

(** A number that a binary64 float holds exactly, in the range the decoder
    works in: a half-integer below 2^52 in magnitude. *)
Definition held_exactly (q : Q) : Prop :=
  exists k : Z, (q == inject_Z k / 2)%Q /\ Z.abs k < 2 ^ 53.

(** The relative error of one rounded binary64 operation is at most 2^-53. *)
Definition unit_roundoff : Q := 1 # 9007199254740992.

(** ** Scenarios *)

Definition file (p : string) (lines : list string) : entry :=
  {| e_path := p; e_is_dir := false; e_lines := lines |}.

Definition directory (p : string) : entry :=
  {| e_path := p; e_is_dir := true; e_lines := [] |}.

(** A world that starts at time 0 with an empty trace. *)
Definition world_of (disk : nat -> list entry) : world :=
  {| now := 0; timeline := disk; trace := [] |}.

(** A disk that does not change. *)
Definition still (l : list entry) : nat -> list entry := fun _ => l.

Definition newline : string := String "010" "".

(** A settings file that declares a grid of 3 by 2. *)
Definition settings_3x2 : entry :=
  file "acq/0001/run_AcquireSettings.txt"
       ["ScanGridX = 3" +:+ newline; "ScanGridY = 2" +:+ newline;
        "StackDepths = 100" +:+ newline].

Definition tile_1 : string := "acq/0001/000000_000001___0c".
Definition tile_2 : string := "acq/0001/000000_000002___0c".

(** A default acquisition of 2 by 2 tiles in raster order, one tile a
    second. *)
Definition raster_2x2 (t : nat) : list entry :=
  take (S t) [file "acq/0_0.tif" []; file "acq/0_1.tif" [];
              file "acq/1_0.tif" []; file "acq/1_1.tif" []].

(** A clearscope acquisition whose first two tile directories are there. *)
Definition clearscope_two_tiles : nat -> list entry :=
  still [settings_3x2; directory tile_1; directory tile_2].

(** The directory of tile 2 is seen first; one second later the listing
    gives the directory of tile 1 before it. *)
Definition late_first_tile (t : nat) : list entry :=
  match t with
  | O => [settings_3x2; directory tile_2]
  | S _ => [settings_3x2; directory tile_1; directory tile_2]
  end.

(** The settings file shows up in [acq/0001] one second after the start. *)
Definition late_settings (t : nat) : list entry :=
  match t with
  | O => []
  | S _ => [settings_3x2]
  end.

(** A default pipeline of 2 by 2 tiles, just constructed. *)
Definition default_pipeline (path : string) (disk : nat -> list entry) : pstate :=
  snd (baseRunningPipeline___init__ path 2 2 1 "tiff3D"
         (new cls_base (world_of disk))).

(** A tile as a stub watcher would hand it to the loop. *)
Definition stub_tile : runningTile :=
  {| t_path := "acq/0_0.tif"; t_row := 0; t_col := 0; t_type := VStr "tiff3D";
     t_frame_size := 2048; t_folder_root := VStr "acq"; t_channel := Some 0;
     t_n_channels := VInt 1; t_data := None; t_apr := None |}.

(** A clearscope pipeline on [acq], just constructed. *)
Definition clearscope_pipeline (disk : nat -> list entry) : pstate :=
  snd (clearscopeRunningPipeline___init__ 1 "acq" 1
         (new cls_clearscope (world_of disk))).

Definition buffer_of (st : pstate) : option val :=
  self st !! "buffer_tile_to_be_processed".

(** * Reasoning about runs *)

(** ** Laws of the run monad *)

Section monad_laws.
Context {A B : Type}.
Implicit Types (k : A -> M B) (st : pstate).

Lemma bind_assoc {C} (m : M C) (f : C -> M A) k st :
  ((m ≫= f) ≫= k) st = (m ≫= (fun c => f c ≫= k)) st.
Proof. unfold mbind, M_bind. by destruct (m st) as [[]]. Qed.

Lemma bind_mret (a : A) k st : (mret a ≫= k) st = k a st.
Proof. reflexivity. Qed.

Lemma bind_lift_Ok (a : A) k st : (lift (Ok a) ≫= k) st = k a st.
Proof. reflexivity. Qed.

Lemma bind_lift_Raise (e : exn) k st :
  (lift (Raise e) ≫= k) st = (Raise e, st).
Proof. reflexivity. Qed.

Lemma bind_raise (e : exn) k st : (raise e ≫= k) st = (Raise e, st).
Proof. reflexivity. Qed.

Lemma bind_out_of_fuel k st : (out_of_fuel ≫= k) st = (OutOfFuel, st).
Proof. reflexivity. Qed.
End monad_laws.

Section primitive_laws.
Context {B : Type}.
Implicit Types (st : pstate).

Lemma bind_self_get (name : string) (v : val) (k : val -> M B) st :
  self st !! name = Some v -> (self_get name ≫= k) st = k v st.
Proof. intros H. unfold mbind, M_bind, self_get, getattr. by rewrite H. Qed.

Lemma bind_self_get_None (name : string) (k : val -> M B) st :
  self st !! name = None ->
  (self_get name ≫= k) st = (Raise (AttributeError name), st).
Proof. intros H. unfold mbind, M_bind, self_get, getattr. by rewrite H. Qed.

Lemma bind_self_set (name : string) (v : val) (k : unit -> M B) st :
  (self_set name v ≫= k) st
  = k tt {| self := <[name := v]> (self st); klass := klass st; env := env st |}.
Proof. reflexivity. Qed.

Lemma bind_get_env (k : world -> M B) st : (get_env ≫= k) st = k (env st) st.
Proof. reflexivity. Qed.

Lemma bind_emit (ev : event) (k : unit -> M B) st :
  (emit ev ≫= k) st
  = k tt {| self := self st; klass := klass st;
            env := {| now := now (env st); timeline := timeline (env st);
                      trace := trace (env st) ++ [ev] |} |}.
Proof. reflexivity. Qed.

Lemma bind_sleep (k : unit -> M B) st :
  (sleep ≫= k) st
  = k tt {| self := self st; klass := klass st;
            env := {| now := S (now (env st)); timeline := timeline (env st);
                      trace := trace (env st) ++ [EvSleep] |} |}.
Proof. reflexivity. Qed.

Lemma bind_glob (pattern : string) (k : list string -> M B) st :
  (glob pattern ≫= k) st
  = k (glob_paths pattern (env st))
      {| self := self st; klass := klass st;
         env := {| now := now (env st); timeline := timeline (env st);
                   trace := trace (env st) ++ [EvGlob pattern] |} |}.
Proof. reflexivity. Qed.

Lemma bind_bound_method (m : string) (d : cls) (k : cls -> M B) st :
  resolve (klass st) m = Some d -> (bound_method m ≫= k) st = k d st.
Proof. intros H. unfold mbind, M_bind, bound_method. by rewrite H. Qed.

Lemma bind_bound_method_None (m : string) (k : cls -> M B) st :
  resolve (klass st) m = None ->
  (bound_method m ≫= k) st = (Raise (AttributeError m), st).
Proof. intros H. unfold mbind, M_bind, bound_method. by rewrite H. Qed.

Lemma bind_self_call {A} (f : obj -> outcome A) (a : A) (k : A -> M B) st :
  f (self st) = Ok a -> (self_call f ≫= k) st = k a st.
Proof. intros H. unfold mbind, M_bind, self_call. by rewrite H. Qed.
End primitive_laws.

(** Attribute lookups after assignments. *)
Ltac attr :=
  try unfold setattr; cbn [self klass env];
  repeat (rewrite lookup_insert_ne by discriminate);
  first [ apply lookup_insert_eq | eassumption | reflexivity ].

(** One step of a run: bring the next statement to the head, then execute
    it. *)
Ltac mstep :=
  first
    [ rewrite bind_assoc
    | rewrite bind_mret
    | rewrite bind_lift_Ok
    | rewrite bind_lift_Raise
    | rewrite bind_raise
    | rewrite bind_self_set
    | rewrite bind_get_env
    | rewrite bind_emit
    | rewrite bind_sleep
    | rewrite bind_glob
    | erewrite bind_self_get by attr
    | erewrite bind_bound_method by (cbn [klass]; first [eassumption | reflexivity])
    ];
  cbn [self klass env now timeline trace];
  cbn [py_getitem as_path py_str is_none is_True py_truthy is_empty_list
       unpack lookup list_lookup negb py_mul py_add py_sub py_arith as_int
       as_number number_of mbind outcome_bind].


Lemma bind_Ok {A B} (m : M A) (k : A -> M B) (st st' : pstate) (a : A) :
  m st = (Ok a, st') -> (m ≫= k) st = k a st'.
Proof. intros H. unfold mbind, M_bind. by rewrite H. Qed.

Lemma bind_Raise {A B} (m : M A) (k : A -> M B) (st st' : pstate) (e : exn) :
  m st = (Raise e, st') -> (m ≫= k) st = (Raise e, st').
Proof. intros H. unfold mbind, M_bind. by rewrite H. Qed.

Lemma bind_OutOfFuel {A B} (m : M A) (k : A -> M B) (st st' : pstate) :
  m st = (OutOfFuel, st') -> (m ≫= k) st = (OutOfFuel, st').
Proof. intros H. unfold mbind, M_bind. by rewrite H. Qed.

(** A sequence that returned: its first statement returned, and the rest
    returned from the state it left. *)
Lemma bind_inv_Ok {A B} (m : M A) (k : A -> M B) (st st' : pstate) (b : B) :
  (m ≫= k) st = (Ok b, st') ->
  exists a st1, m st = (Ok a, st1) /\ k a st1 = (Ok b, st').
Proof.
  unfold mbind, M_bind. destruct (m st) as [[a|e|] st1]; [|done..].
  intros H. by exists a, st1.
Qed.

(** The same step, in a hypothesis. *)
Ltac mstep_in H :=
  first
    [ rewrite bind_assoc in H
    | rewrite bind_mret in H
    | rewrite bind_lift_Ok in H
    | rewrite bind_lift_Raise in H
    | rewrite bind_raise in H
    | rewrite bind_self_set in H
    | rewrite bind_get_env in H
    | rewrite bind_emit in H
    | rewrite bind_sleep in H
    | rewrite bind_glob in H
    | erewrite bind_self_get in H by attr
    | erewrite bind_bound_method in H
        by (cbn [klass]; first [eassumption | reflexivity])
    ];
  cbn [self klass env now timeline trace] in H;
  cbn [py_getitem as_path py_str is_none is_True py_truthy is_empty_list
       unpack lookup list_lookup negb py_mul py_add py_sub py_arith as_int
       as_number number_of mbind outcome_bind] in H.

(** ** Arithmetic of the decoder *)

Lemma py_int_of_float_inject (q : Q) (z : Z) :
  (q == inject_Z z)%Q -> py_int_of_float q = z.
Proof.
  destruct q as [a d]. unfold Qeq, py_int_of_float. simpl. intros H.
  rewrite Z.mul_1_r in H. subst a. apply Z.quot_mul. discriminate.
Qed.

Lemma inject_Z_minus (x y : Z) : inject_Z (x - y) = (inject_Z x - inject_Z y)%Q.
Proof. unfold Z.sub, Qminus. by rewrite inject_Z_plus, inject_Z_opp. Qed.

Lemma np_mod_inject (a b : Q) (A B : Z) :
  B <> 0 -> (a == inject_Z A)%Q -> (b == inject_Z B)%Q ->
  (np_mod a b == inject_Z (A mod B))%Q.
Proof.
  intros HB Ha Hb. unfold np_mod.
  assert (Qfloor (a / b) = A / B) as ->.
  { rewrite (Zdiv_Qdiv A B). apply Qfloor_comp. by rewrite Ha, Hb. }
  rewrite Ha, Hb.
  by rewrite <- inject_Z_mult, <- inject_Z_minus, <- Z.mod_eq.
Qed.

Lemma np_ceil_inject (a b : Q) (A B : Z) :
  (a == inject_Z A)%Q -> (b == inject_Z B)%Q ->
  (np_ceil (a / b) == inject_Z (- ((- A) / B)))%Q.
Proof.
  intros Ha Hb. unfold np_ceil, Qceiling.
  assert (Qfloor (- (a / b)) = (- A) / B) as ->; [|reflexivity].
  rewrite (Zdiv_Qdiv (- A) B). apply Qfloor_comp.
  rewrite Ha, Hb, inject_Z_opp. unfold Qdiv. ring.
Qed.

Lemma ceil_div_pred (n c : Z) : 0 < c -> - ((- n) / c) - 1 = (n - 1) / c.
Proof.
  intros Hc.
  pose proof (Z.div_mod (n - 1) c ltac:(lia)) as E.
  pose proof (Z.mod_pos_bound (n - 1) c Hc) as B.
  assert (H : - ((n - 1) / c) - 1 = (- n) / c).
  { apply Z.div_unique_pos with (r := c - 1 - (n - 1) mod c); lia. }
  lia.
Qed.

(** The folded column, on integers: the remainder [m] of [n - c - 1] by
    [2 c] is mirrored around [c - 1/2]. *)
Lemma fold_column (m c : Q) (M C : Z) :
  (m == inject_Z M)%Q -> (c == inject_Z C)%Q ->
  (Qabs (m - c + (1#2)) + (1#2) - 1
   == inject_Z (if (M <? C)%Z then C - 1 - M else M - C)%Z)%Q.
Proof.
  intros Hm Hc. rewrite Hm, Hc. destruct (Z.ltb_spec M C) as [H|H].
  - rewrite Qabs_neg.
    + rewrite !inject_Z_minus. change (inject_Z 1) with 1%Q. ring.
    + rewrite <- inject_Z_minus. unfold Qle, Qplus. simpl. lia.
  - rewrite Qabs_pos.
    + rewrite !inject_Z_minus. ring.
    + rewrite <- inject_Z_minus. unfold Qle, Qplus. simpl. lia.
Qed.

(** Which remainder it is, by the parity of the row. *)
Lemma serpentine_remainder (n c : Z) :
  0 < c -> 1 <= n ->
  (n - c - 1) mod (2 * c) =
    if Z.even ((n - 1) / c) then c + (n - 1) mod c else (n - 1) mod c.
Proof.
  intros Hc Hn.
  pose proof (Z.div_mod (n - 1) c ltac:(lia)) as E.
  pose proof (Z.mod_pos_bound (n - 1) c Hc) as B.
  set (r := (n - 1) / c) in *. set (j := (n - 1) mod c) in *.
  destruct (Z.even r) eqn:Hr.
  - apply Z.even_spec in Hr as [k Hk]. symmetry.
    apply Z.mod_unique_pos with (q := k - 1); nia.
  - assert (Ho : Z.odd r = true) by (rewrite <- Z.negb_even, Hr; done).
    apply Z.odd_spec in Ho as [k Hk]. symmetry.
    apply Z.mod_unique_pos with (q := k); nia.
Qed.

Lemma Qeq_refl_eq (a b : Q) : a = b -> (a == b)%Q.
Proof. intros ->. reflexivity. Qed.

Lemma get_row_col_closed (self : obj) (path : string) (v : val) (q : Q) (c n : Z) :
  self !! "ncol" = Some v -> number_of v = Some q -> (q == inject_Z c)%Q ->
  1 <= c -> 1 <= n -> embeds path n ->
  _get_row_col self path = Ok ((n - 1) / c, serpentine_col c n).
Proof.
  intros Hv Hq Hqc Hc Hn (s & rest & Hs & Hd).
  unfold _get_row_col, getattr. rewrite Hs, Hv.
  cbn [mbind outcome_bind load_local]. unfold as_number. rewrite Hq, Hd.
  cbn [mbind outcome_bind].
  assert (Qeq_bool q 0 = false) as ->.
  { apply not_true_is_false. intros H%Qeq_bool_iff. rewrite Hqc in H.
    unfold Qeq in H. simpl in H. lia. }
  f_equal. f_equal.
  - apply py_int_of_float_inject.
    rewrite (np_ceil_inject _ _ n c); [|reflexivity|assumption].
    change 1%Q with (inject_Z 1). rewrite <- inject_Z_minus.
    by rewrite ceil_div_pred by lia.
  - apply py_int_of_float_inject.
    rewrite (fold_column _ _ ((n - c - 1) mod (2 * c)) c); [| |assumption].
    + apply Qeq_refl_eq. f_equal.
      rewrite serpentine_remainder by lia. unfold serpentine_col.
      pose proof (Z.mod_pos_bound (n - 1) c ltac:(lia)).
      destruct (Z.even _).
      * rewrite (proj2 (Z.ltb_ge _ _)) by lia. lia.
      * by rewrite (proj2 (Z.ltb_lt _ _)) by lia.
    + apply np_mod_inject; [lia| |].
      * rewrite Hqc. change 1%Q with (inject_Z 1). by rewrite <- !inject_Z_minus.
      * rewrite Hqc. change 2%Q with (inject_Z 2). by rewrite <- inject_Z_mult.
Qed.

Lemma serpentine_col_bounds (c n : Z) : 0 < c -> 0 <= serpentine_col c n < c.
Proof.
  intros Hc. unfold serpentine_col.
  pose proof (Z.mod_pos_bound (n - 1) c Hc). destruct (Z.even _); lia.
Qed.

Lemma serpentine_inj (c n1 n2 : Z) :
  0 < c -> (n1 - 1) / c = (n2 - 1) / c ->
  serpentine_col c n1 = serpentine_col c n2 -> n1 = n2.
Proof.
  intros Hc Hr. unfold serpentine_col. rewrite Hr. intros Hj.
  assert ((n1 - 1) mod c = (n2 - 1) mod c) as Hm by (destruct (Z.even _); lia).
  pose proof (Z.div_mod (n1 - 1) c ltac:(lia)).
  pose proof (Z.div_mod (n2 - 1) c ltac:(lia)). lia.
Qed.

Lemma serpentine_index_decoded (c r k : Z) :
  0 <= k < c ->
  (serpentine_index c r k - 1) / c = r /\
  serpentine_col c (serpentine_index c r k) = k.
Proof.
  intros Hk. unfold serpentine_col, serpentine_index.
  set (j := if Z.even r then k else c - 1 - k).
  assert (0 <= j < c) as Hj by (unfold j; destruct (Z.even r); lia).
  assert ((r * c + 1 + j - 1) / c = r) as ->.
  { symmetry. apply Z.div_unique_pos with (r := j); lia. }
  assert ((r * c + 1 + j - 1) mod c = j) as ->.
  { symmetry. apply Z.mod_unique_pos with (q := r); lia. }
  split; [done|]. unfold j. destruct (Z.even r); lia.
Qed.

(** ** Names of tile directories *)

Lemma digit_char_spec (d : Z) :
  0 <= d <= 9 -> is_digit (digit_char d) = true /\ digit_value (digit_char d) = d.
Proof.
  intros H.
  assert (d = 0 \/ d = 1 \/ d = 2 \/ d = 3 \/ d = 4 \/ d = 5 \/ d = 6 \/ d = 7
          \/ d = 8 \/ d = 9) as Hd by lia.
  repeat (destruct Hd as [->|Hd]; [done|]). by subst.
Qed.

Lemma tile_dirname_embeds (n ch : Z) :
  0 <= n <= 999999 -> 0 <= ch <= 9 -> embeds (tile_dirname n ch) n.
Proof.
  intros Hn Hch. unfold tile_dirname.
  pose proof (Z.mod_pos_bound (n / 100000) 10 ltac:(lia)) as B1.
  pose proof (Z.mod_pos_bound (n / 10000) 10 ltac:(lia)) as B2.
  pose proof (Z.mod_pos_bound (n / 1000) 10 ltac:(lia)) as B3.
  pose proof (Z.mod_pos_bound (n / 100) 10 ltac:(lia)) as B4.
  pose proof (Z.mod_pos_bound (n / 10) 10 ltac:(lia)) as B5.
  pose proof (Z.mod_pos_bound n 10 ltac:(lia)) as B6.
  assert (n = 100000 * (n / 100000 mod 10) + 10000 * (n / 10000 mod 10)
              + 1000 * (n / 1000 mod 10) + 100 * (n / 100 mod 10)
              + 10 * (n / 10 mod 10) + n mod 10) as Hsum.
  { assert (n / 100000 < 10) by (apply Z.div_lt_upper_bound; lia).
    assert (n / 100 = n / 10 / 10) by (by rewrite Z.div_div by lia).
    assert (n / 1000 = n / 100 / 10) by (by rewrite Z.div_div by lia).
    assert (n / 10000 = n / 1000 / 10) by (by rewrite Z.div_div by lia).
    assert (n / 100000 = n / 10000 / 10) by (by rewrite Z.div_div by lia).
    pose proof (Z.div_mod n 10 ltac:(lia)).
    pose proof (Z.div_mod (n / 10) 10 ltac:(lia)).
    pose proof (Z.div_mod (n / 100) 10 ltac:(lia)).
    pose proof (Z.div_mod (n / 1000) 10 ltac:(lia)).
    pose proof (Z.div_mod (n / 10000) 10 ltac:(lia)).
    pose proof (Z.div_mod (n / 100000) 10 ltac:(lia)).
    lia. }
  destruct (digit_char_spec (n / 100000 mod 10) ltac:(lia)) as [I1 V1].
  destruct (digit_char_spec (n / 10000 mod 10) ltac:(lia)) as [I2 V2].
  destruct (digit_char_spec (n / 1000 mod 10) ltac:(lia)) as [I3 V3].
  destruct (digit_char_spec (n / 100 mod 10) ltac:(lia)) as [I4 V4].
  destruct (digit_char_spec (n / 10 mod 10) ltac:(lia)) as [I5 V5].
  destruct (digit_char_spec (n mod 10) ltac:(lia)) as [I6 V6].
  destruct (digit_char_spec ch Hch) as [I7 _].
  revert I1 V1 I2 V2 I3 V3 I4 V4 I5 V5 I6 V6 I7.
  generalize (digit_char (n / 100000 mod 10)) (digit_char (n / 10000 mod 10))
    (digit_char (n / 1000 mod 10)) (digit_char (n / 100 mod 10))
    (digit_char (n / 10 mod 10)) (digit_char (n mod 10)) (digit_char ch).
  intros c1 c2 c3 c4 c5 c6 c7 I1 V1 I2 V2 I3 V3 I4 V4 I5 V5 I6 V6 I7.
  exists (string_of_list_ascii [c1; c2; c3; c4; c5; c6]), []. split.
  - cbn [string_of_list_ascii re_findall]. unfold tile_dir_prefix.
    cbn [substring list_ascii_of_string forallb].
    rewrite I1, I2, I3, I4, I5, I6, I7. reflexivity.
  - unfold py_int_of_digits.
    cbn [string_of_list_ascii list_ascii_of_string fold_left].
    rewrite V1, V2, V3, V4, V5, V6. lia.
Qed.


(** ** Decoding the paths the watcher hands over *)

Lemma re_findall_fmap {G} (g : string * string -> G) (k : nat) (s : string) :
  re_findall g k s = g <$> re_findall id k s.
Proof.
  revert k. induction s as [|a s IH]; intros k; [done|].
  cbn [re_findall]. destruct k as [|k]; [|apply IH].
  destruct (tile_dir_prefix _); cbn [fmap list_fmap]; by rewrite IH.
Qed.


Lemma is_digit_not_underscore (a : ascii) : is_digit a = true -> a <> "_"%char.
Proof. by intros H ->. Qed.

(** A match of the tile pattern at the start of [s] has underscores at
    positions 13, 14 and 15. *)
Lemma tile_dir_prefix_underscores (s : string) (g : string * string) :
  tile_dir_prefix s = Some g ->
  String.get 13 s = Some "_"%char /\ String.get 14 s = Some "_"%char
  /\ String.get 15 s = Some "_"%char.
Proof.
  unfold tile_dir_prefix.
  do 18 (destruct s as [|? s]; [intros H; cbn in H; discriminate|]).
  destruct s as [|? s];
  cbn [substring list_ascii_of_string String.get].
  all: revert a a0 a1 a2 a3 a4 a5 a6 a7 a8 a9 a10 a11 a12 a13 a14 a15 a16;
    intros a1 a2 a3 a4 a5 a6 u1 b1 b2 b3 b4 b5 b6 u2 u3 u4 d c.
  all: intros H;
    match type of H with
    | (if ?c then _ else _) = _ => destruct c eqn:C; [clear H|discriminate]
    end.
  all: apply andb_prop in C as [C _]; apply andb_prop in C as [_ C];
    cbn [forallb] in C;
    apply andb_prop in C as [_ C]; apply andb_prop in C as [C1 C];
    apply andb_prop in C as [C2 C]; apply andb_prop in C as [C3 _].
  all: apply Ascii.eqb_eq in C1, C2, C3; by subst.
Qed.

Lemma no_triple_underscore_get (s : string) (i : nat) :
  no_triple_underscore s = true ->
  String.get i s = Some "_"%char -> String.get (S i) s = Some "_"%char ->
  String.get (S (S i)) s = Some "_"%char -> False.
Proof.
  revert i. induction s as [|a s IH]; intros i Hs H0 H1 H2; [done|].
  cbn [no_triple_underscore] in Hs. apply andb_prop in Hs as [Ha Hs].
  destruct i as [|i].
  - destruct s as [|b [|c s]]; try done. cbn [String.get] in *.
    injection H0 as ->. injection H1 as ->. injection H2 as ->. done.
  - cbn [String.get] in *. by apply (IH i).
Qed.

Section tile_names.
Variables c1 c2 c3 c4 c5 c6 c7 : ascii.
Hypothesis digits :
  forallb is_digit [c1; c2; c3; c4; c5; c6; c7] = true.

Lemma name_slash_underscores (j : nat) :
  String.get j (name_slash c1 c2 c3 c4 c5 c6 c7) = Some "_"%char ->
  (j = 6 \/ j = 13 \/ j = 14 \/ j = 15)%nat.
Proof.
  cbn [forallb] in digits.
  repeat (apply andb_prop in digits as [?%is_digit_not_underscore digits]).
  unfold name_slash. cbn [string_of_list_ascii]. intros Hget.
  do 19 (destruct j as [|j];
         [cbn [String.get] in Hget;
          first [ lia | discriminate | by injection Hget as -> ] |]).
  done.
Qed.

Lemma name_slash_findall :
  re_findall id 0 (name_slash c1 c2 c3 c4 c5 c6 c7)
  = [(string_of_list_ascii [c1; c2; c3; c4; c5; c6], String c7 "")].
Proof.
  cbn [forallb] in digits.
  repeat (apply andb_prop in digits as [? digits]).
  unfold name_slash. cbn [string_of_list_ascii re_findall].
  unfold tile_dir_prefix. cbn [substring list_ascii_of_string forallb id].
  repeat match goal with H : is_digit _ = true |- _ => rewrite H; clear H end.
  reflexivity.
Qed.

(** In front of a tile directory name, a prefix without three underscores
    in a row holds no match of the tile pattern and starts none. *)
Lemma findall_after_prefix (pre : string) :
  no_triple_underscore pre = true ->
  re_findall id 0 (pre +:+ name_slash c1 c2 c3 c4 c5 c6 c7)
  = [(string_of_list_ascii [c1; c2; c3; c4; c5; c6], String c7 "")].
Proof.
  induction pre as [|a pre IH]; intros Hpre; [apply name_slash_findall|].
  change (String a pre +:+ ?s) with (String a (pre +:+ s)).
  cbn [re_findall].
  destruct (tile_dir_prefix _) as [g|] eqn:E.
  - exfalso. apply tile_dir_prefix_underscores in E as (H13 & H14 & H15).
    change (String a (pre +:+ ?s)) with (String a pre +:+ s) in H13, H14, H15.
    set (p := String a pre) in *.
    assert (1 <= String.length p)%nat as Hlen by (cbn; lia).
    destruct (decide (15 < String.length p)%nat) as [Hm|Hm].
    + rewrite <- append_correct1 in H13, H14, H15 by lia.
      by eapply (no_triple_underscore_get p 13).
    + pose proof (append_correct2 p (name_slash c1 c2 c3 c4 c5 c6 c7)
                    (15 - String.length p)) as G15.
      replace (15 - String.length p + String.length p)%nat with 15%nat in G15 by lia.
      rewrite H15 in G15. apply name_slash_underscores in G15.
      pose proof (append_correct2 p (name_slash c1 c2 c3 c4 c5 c6 c7)
                    (14 - String.length p)) as G14.
      replace (14 - String.length p + String.length p)%nat with 14%nat in G14 by lia.
      rewrite H14 in G14. apply name_slash_underscores in G14.
      pose proof (append_correct2 p (name_slash c1 c2 c3 c4 c5 c6 c7)
                    (13 - String.length p)) as G13.
      replace (13 - String.length p + String.length p)%nat with 13%nat in G13 by lia.
      rewrite H13 in G13. apply name_slash_underscores in G13.
      lia.
  - apply IH. cbn [no_triple_underscore] in Hpre.
    by apply andb_prop in Hpre as [_ ?].
Qed.
End tile_names.

Lemma digit_char_value (d : Z) : 0 <= d <= 9 -> digit_value (digit_char d) = d.
Proof. intros H. by apply digit_char_spec. Qed.

Lemma digit_char_is_digit (d : Z) : 0 <= d <= 9 -> is_digit (digit_char d) = true.
Proof. intros H. by apply digit_char_spec. Qed.

Lemma six_digits_value (n : Z) :
  0 <= n <= 999999 ->
  py_int_of_digits
    (string_of_list_ascii
       [digit_char (n / 100000 mod 10); digit_char (n / 10000 mod 10);
        digit_char (n / 1000 mod 10); digit_char (n / 100 mod 10);
        digit_char (n / 10 mod 10); digit_char (n mod 10)]) = n.
Proof.
  intros Hn.
  pose proof (Z.mod_pos_bound (n / 100000) 10 ltac:(lia)).
  pose proof (Z.mod_pos_bound (n / 10000) 10 ltac:(lia)).
  pose proof (Z.mod_pos_bound (n / 1000) 10 ltac:(lia)).
  pose proof (Z.mod_pos_bound (n / 100) 10 ltac:(lia)).
  pose proof (Z.mod_pos_bound (n / 10) 10 ltac:(lia)).
  pose proof (Z.mod_pos_bound n 10 ltac:(lia)).
  unfold py_int_of_digits.
  cbn [string_of_list_ascii list_ascii_of_string fold_left].
  rewrite !digit_char_value by lia.
  assert (n / 100000 < 10) by (apply Z.div_lt_upper_bound; lia).
  assert (n / 100 = n / 10 / 10) by (by rewrite Z.div_div by lia).
  assert (n / 1000 = n / 100 / 10) by (by rewrite Z.div_div by lia).
  assert (n / 10000 = n / 1000 / 10) by (by rewrite Z.div_div by lia).
  assert (n / 100000 = n / 10000 / 10) by (by rewrite Z.div_div by lia).
  pose proof (Z.div_mod n 10 ltac:(lia)).
  pose proof (Z.div_mod (n / 10) 10 ltac:(lia)).
  pose proof (Z.div_mod (n / 100) 10 ltac:(lia)).
  pose proof (Z.div_mod (n / 1000) 10 ltac:(lia)).
  pose proof (Z.div_mod (n / 10000) 10 ltac:(lia)).
  pose proof (Z.div_mod (n / 100000) 10 ltac:(lia)).
  lia.
Qed.

(** The one match of the tile pattern in the path of a tile directory. *)
Lemma findall_tile_path (dir : string) (n ch : Z) :
  no_triple_underscore dir = true -> 0 <= n <= 999999 -> 0 <= ch <= 9 ->
  re_findall id 0 (dir +:+ tile_dirname n ch +:+ "/")
  = [(string_of_list_ascii
        [digit_char (n / 100000 mod 10); digit_char (n / 10000 mod 10);
         digit_char (n / 1000 mod 10); digit_char (n / 100 mod 10);
         digit_char (n / 10 mod 10); digit_char (n mod 10)],
      String (digit_char ch) "")].
Proof.
  intros Hdir Hn Hch.
  change (tile_dirname n ch +:+ "/")
    with (name_slash (digit_char (n / 100000 mod 10)) (digit_char (n / 10000 mod 10))
            (digit_char (n / 1000 mod 10)) (digit_char (n / 100 mod 10))
            (digit_char (n / 10 mod 10)) (digit_char (n mod 10)) (digit_char ch)).
  apply findall_after_prefix; [|done].
  pose proof (Z.mod_pos_bound (n / 100000) 10 ltac:(lia)).
  pose proof (Z.mod_pos_bound (n / 10000) 10 ltac:(lia)).
  pose proof (Z.mod_pos_bound (n / 1000) 10 ltac:(lia)).
  pose proof (Z.mod_pos_bound (n / 100) 10 ltac:(lia)).
  pose proof (Z.mod_pos_bound (n / 10) 10 ltac:(lia)).
  pose proof (Z.mod_pos_bound n 10 ltac:(lia)).
  cbn [forallb]. rewrite !digit_char_is_digit by lia. done.
Qed.


(** The decoder on the path of a tile directory. *)
Lemma get_row_col_tile_path
    (self : obj) (v : val) (q : Q) (c : Z) (dir : string) (n ch : Z) :
  self !! "ncol" = Some v -> number_of v = Some q -> (q == inject_Z c)%Q ->
  1 <= c -> 1 <= n <= 999999 ->
  no_triple_underscore dir = true -> 0 <= ch <= 9 ->
  _get_row_col self (dir +:+ tile_dirname n ch +:+ "/")
  = Ok ((n - 1) / c, serpentine_col c n).
Proof.
  intros Hv Hq Hqc Hc Hn Hdir Hch.
  apply (get_row_col_closed self _ v q c n); try done; try lia.
  eexists _, []. split.
  - rewrite re_findall_fmap, findall_tile_path by (done || lia). reflexivity.
  - cbn [fst]. apply six_digits_value. lia.
Qed.

(** C1. On a grid of [nrow] rows of [ncol >= 1] tiles, all of which have a
    six-digit number, the clearscope decoder [_get_row_col], read on the
    paths of the tile directories 1 .. nrow*ncol, is a bijection onto
    [0,nrow) x [0,ncol): every directory is decoded to a cell of the grid,
    two directories never share a cell, and every cell is the cell of a
    directory of the range. *)
Theorem clearscope_decoder_bijection
    (self : obj) (v : val) (q : Q) (nrow ncol : Z) (dir : string) (ch : Z) :
  self !! "ncol" = Some v -> number_of v = Some q -> (q == inject_Z ncol)%Q ->
  0 <= nrow -> 1 <= ncol -> nrow * ncol <= 999999 ->
  no_triple_underscore dir = true -> 0 <= ch <= 9 ->
  (forall n, 1 <= n <= nrow * ncol ->
     exists r c, _get_row_col self (dir +:+ tile_dirname n ch +:+ "/") = Ok (r, c)
                 /\ 0 <= r < nrow /\ 0 <= c < ncol)
  /\ (forall n1 n2,
        1 <= n1 <= nrow * ncol -> 1 <= n2 <= nrow * ncol ->
        _get_row_col self (dir +:+ tile_dirname n1 ch +:+ "/")
        = _get_row_col self (dir +:+ tile_dirname n2 ch +:+ "/") ->
        n1 = n2)
  /\ (forall r c, 0 <= r < nrow -> 0 <= c < ncol ->
        exists n, 1 <= n <= nrow * ncol
                  /\ _get_row_col self (dir +:+ tile_dirname n ch +:+ "/")
                     = Ok (r, c)).
Proof.
  intros Hv Hq Hqc Hnrow Hncol Hmax Hdir Hch.
  assert (forall n, 1 <= n <= nrow * ncol ->
            _get_row_col self (dir +:+ tile_dirname n ch +:+ "/")
            = Ok ((n - 1) / ncol, serpentine_col ncol n)) as Hdec.
  { intros n Hn. apply (get_row_col_tile_path self v q); done || lia. }
  repeat split.
  - intros n Hn.
    exists ((n - 1) / ncol), (serpentine_col ncol n). split; [|split].
    + by apply Hdec.
    + split; [apply Z.div_pos; lia|]. apply Z.div_lt_upper_bound; lia.
    + apply serpentine_col_bounds. lia.
  - intros n1 n2 Hn1 Hn2. rewrite (Hdec n1 Hn1), (Hdec n2 Hn2).
    intros [= Hr Hk]. apply (serpentine_inj ncol); [lia|done..].
  - intros r c Hr Hc.
    destruct (serpentine_index_decoded ncol r c Hc) as [Hd Hk].
    assert (1 <= serpentine_index ncol r c <= nrow * ncol) as Hn
      by (unfold serpentine_index; destruct (Z.even r); nia).
    exists (serpentine_index ncol r c). split; [exact Hn|].
    by rewrite (Hdec _ Hn), Hd, Hk.
Qed.

Lemma clearscope_decoder_bijection_witness :
  let self := self (clearscope_pipeline clearscope_two_tiles) in
  let name n := "acq/0001/" +:+ tile_dirname n 0 +:+ "/" in
  (forall n, 1 <= n <= 2 * 2 ->
     exists r c, _get_row_col self (name n) = Ok (r, c) /\ 0 <= r < 2 /\ 0 <= c < 2)
  /\ (forall n1 n2,
        1 <= n1 <= 2 * 2 -> 1 <= n2 <= 2 * 2 ->
        _get_row_col self (name n1) = _get_row_col self (name n2) -> n1 = n2)
  /\ (forall r c, 0 <= r < 2 -> 0 <= c < 2 ->
        exists n, 1 <= n <= 2 * 2 /\ _get_row_col self (name n) = Ok (r, c)).
Proof.
  apply (clearscope_decoder_bijection
           (self (clearscope_pipeline clearscope_two_tiles)) (VFloat 2) 2 2 2
           "acq/0001/" 0);
    [vm_compute; reflexivity | reflexivity | reflexivity | lia | lia | lia
    | reflexivity | lia].
Defined.

(** The four tiles of the spec's example, rows of ten. *)
Example decoder_rows_of_ten :
  let self : obj := {[ "ncol" := VFloat 10 ]} in
  _get_row_col self (tile_dirname 1 0) = Ok (0, 0)
  /\ _get_row_col self (tile_dirname 10 0) = Ok (0, 9)
  /\ _get_row_col self (tile_dirname 11 0) = Ok (1, 9)
  /\ _get_row_col self (tile_dirname 20 0) = Ok (1, 0).
Proof. repeat split; vm_compute; reflexivity. Qed.

(** Rows of odd length: tiles 4, 5, 6 of a grid with rows of three run
    backwards. *)
Example decoder_rows_of_three :
  let self : obj := {[ "ncol" := VFloat 3 ]} in
  (fun n => _get_row_col self (tile_dirname n 0)) <$> [1; 2; 3; 4; 5; 6; 7]
  = [Ok (0, 0); Ok (0, 1); Ok (0, 2); Ok (1, 2); Ok (1, 1); Ok (1, 0); Ok (2, 0)].
Proof. vm_compute. reflexivity. Qed.
(** ** Names that do not match the tile pattern *)

(** On a name without a match, [_get_channel] answers [None] and
    [_get_row_col] raises: its local [n] was never assigned. *)
Lemma decoders_on_non_matching_name (self : obj) (path : string) :
  re_findall id 0 path = [] ->
  _get_channel self path = Ok None
  /\ _get_row_col self path = Raise (UnboundLocalError "n").
Proof.
  intros H. unfold _get_channel, _get_row_col.
  by rewrite (re_findall_fmap fst), (re_findall_fmap snd), H.
Qed.

(** C8. The directory [000000_abc_c] matches the pattern the watcher scans
    for and does not match the tile pattern of the decoder.  [_get_channel]
    gives no index for it and does not raise; [_get_row_col] raises
    [UnboundLocalError], whatever the pipeline object, and so does the poll
    that finds the directory. *)
Theorem get_row_col_raises_on_non_matching_name (self : obj) :
  let name := "acq/0001/000000_abc_c" in
  wildcard_match "acq/0001/000000_*_*c" true name = true
  /\ re_findall id 0 (name +:+ "/") = []
  /\ _get_channel self (name +:+ "/") = Ok None
  /\ _get_row_col self (name +:+ "/") = Raise (UnboundLocalError "n")
  /\ fst (clearscopeRunningPipeline__is_new_tile_available
            (clearscope_pipeline (still [settings_3x2; directory name])))
     = Raise (UnboundLocalError "n").
Proof. repeat split. Qed.

(** ** The default cursor *)

Lemma Qeq_bool_inject_Z (a b : Z) : Qeq_bool (inject_Z a) (inject_Z b) = (a =? b).
Proof.
  unfold Qeq_bool. cbn. by rewrite !Z.mul_1_r.
Qed.

(** What [_update_next_tile] computes on an object that does have an
    attribute [n_col]: the raster successor of the current tile. *)
Lemma update_next_tile_with_n_col (st : pstate) (row col n_col : Z) :
  self st !! "current_tile" = Some (VList [VInt row; VInt col]) ->
  self st !! "n_col" = Some (VInt n_col) ->
  exists st',
    _update_next_tile st = (Ok tt, st')
    /\ self st' !! "next_tile"
       = Some (if col =? n_col - 1 then VList [VInt (row + 1); VInt 0]
               else VList [VInt row; VInt (col + 1)]).
Proof.
  intros Hc Hn. unfold _update_next_tile. repeat mstep.
  unfold py_eq_number. cbn [as_number number_of]. rewrite Qeq_bool_inject_Z.
  destruct (col =? n_col - 1); repeat mstep; eexists; (split; [reflexivity|attr]).
Qed.

(** No attribute [n_col]: the advance raises. *)
Lemma update_next_tile_without_n_col (st : pstate) :
  self st !! "n_col" = None -> exists e, fst (_update_next_tile st) = Raise e.
Proof.
  intros Hn. unfold _update_next_tile. rewrite bind_assoc.
  destruct (self st !! "current_tile") as [ct|] eqn:Hc.
  - erewrite bind_self_get by eassumption.
    destruct (py_getitem ct 1) as [c1|e|] eqn:Hg.
    + rewrite bind_lift_Ok, bind_self_get_None by done. by eexists.
    + rewrite bind_lift_Raise. by eexists.
    + by destruct ct as [| | | | |l|d0|]; cbn in Hg; repeat case_match.
  - rewrite bind_self_get_None by done. by eexists.
Qed.

(** C2. On a default pipeline as [__init__] builds it, for any grid and with
    any tile [(row, col)] as the current one, [_update_next_tile] does not
    yield a next cursor: it raises [AttributeError], because it reads the
    attribute [n_col] while [__init__] stores the row length as [ncol]. *)
Theorem update_next_tile_raises
    (path : string) (nrow ncol n_channels : Z) (ftype : string) (w : world)
    (row col : Z) :
  fst ((_ ← baseRunningPipeline___init__ path nrow ncol n_channels ftype;
        _ ← self_set "current_tile" (VList [VInt row; VInt col]);
        call_base "_update_next_tile" _update_next_tile) (new cls_base w))
  = Raise (AttributeError "n_col").
Proof. reflexivity. Qed.

(** ** The default watcher *)

(** The three answers of the default watcher, for any cursor. *)
Lemma default_poll_cases (st : pstate) (p : string) (a b : Z) :
  klass st = cls_base ->
  self st !! "path" = Some (VStr p) ->
  self st !! "next_tile" = Some (VList [VInt a; VInt b]) ->
  fst (baseRunningPipeline__is_new_tile_available st) =
  match glob_paths (path_join p (pretty a +:+ "_" +:+ pretty b +:+ ".tif")) (env st) with
  | [] => Ok (RPair false None)
  | [_] => Raise (AttributeError "_get_row_col")
  | _ => Raise (TypeError "Error: glob returned one than one file.")
  end.
Proof.
  destruct st as [s c w]. cbn [klass self env]. intros -> Hp Hn.
  unfold baseRunningPipeline__is_new_tile_available. repeat mstep.
  destruct (glob_paths _ _) as [|x [|y l]]; [reflexivity| |reflexivity].
  repeat mstep. unfold call_base, _get_tile, call_clearscope. repeat mstep.
  by rewrite bind_bound_method_None.
Qed.

(** C7. The default watcher on the cursor [(0, 0)]: with no file for the
    cursor it answers [(False, None)]; with two files it raises the
    [TypeError] of the source; with exactly one file it does not answer
    [(True, tile)] but raises [AttributeError], since [_get_tile] calls
    [_get_row_col], which the default class does not define. *)
Theorem default_poll_single_match_raises :
  fst (baseRunningPipeline__is_new_tile_available
         (default_pipeline "acq" (still [])))
  = Ok (RPair false None)
  /\ fst (baseRunningPipeline__is_new_tile_available
            (default_pipeline "acq" (still [file "acq/0_0.tif" []])))
     = Raise (AttributeError "_get_row_col")
  /\ fst (baseRunningPipeline__is_new_tile_available
            (default_pipeline "acq/*"
               (still [file "acq/a/0_0.tif" []; file "acq/b/0_0.tif" []])))
     = Raise (TypeError "Error: glob returned one than one file.").
Proof. repeat split; vm_compute; reflexivity. Qed.

(** ** The run loop *)

Lemma more_tiles_fresh (st : pstate) (n : Z) :
  self st !! "tile_processed" = Some (VInt 0) ->
  self st !! "n_tiles" = Some (VInt n) -> 1 <= n ->
  more_tiles st = (Ok true, st).
Proof.
  intros Hp Hn Hle. unfold more_tiles. repeat mstep.
  unfold py_lt, lift. cbn [as_number number_of mbind outcome_bind].
  unfold Qle_bool. cbn. rewrite Z.mul_1_r.
  by rewrite (proj2 (Z.leb_gt _ _)) by lia.
Qed.

(** A default pipeline with at least one tile to process never finishes its
    run: each iteration either waits, with nothing processed, or raises. *)
Lemma default_run_never_returns (fuel : nat) (st : pstate) (p : string) (a b n : Z) :
  klass st = cls_base ->
  self st !! "path" = Some (VStr p) ->
  self st !! "next_tile" = Some (VList [VInt a; VInt b]) ->
  self st !! "tile_processed" = Some (VInt 0) ->
  self st !! "n_tiles" = Some (VInt n) -> 1 <= n ->
  fst (run fuel st) <> Ok tt.
Proof.
  destruct st as [s c w]. cbn [klass self env]. intros -> Hp Hn Ht Hm Hle.
  unfold run. mstep. revert w.
  induction fuel as [|fuel IH]; intros w; [done|].
  cbn [baseRunningPipeline_run].
  rewrite (bind_Ok _ _ _ _ _ (more_tiles_fresh (Build_pstate s cls_base w) n Ht Hm Hle)).
  unfold call__is_new_tile_available. rewrite bind_assoc. mstep.
  unfold baseRunningPipeline__is_new_tile_available. repeat mstep.
  destruct (glob_paths _ _) as [|x [|y l]].
  - repeat mstep. apply IH.
  - repeat mstep. unfold call_base, _get_tile, call_clearscope. repeat mstep.
    by rewrite bind_bound_method_None.
  - repeat mstep. done.
Qed.

(** C5. A default run over a 2 by 2 grid whose tiles arrive in raster
    order, one a second, does not end with four tiles processed: the first
    detection raises [AttributeError] and the count is still 0.  A
    clearscope run raises on its first tile as well, in
    [_update_next_tile]; and the statements of the loop body, given a tile
    by a stub watcher, raise in [_update_next_tile] too. *)
Theorem run_raises_on_first_tile :
  (let r := run 10 (default_pipeline "acq" raster_2x2) in
   fst r = Raise (AttributeError "_get_row_col")
   /\ self (snd r) !! "tile_processed" = Some (VInt 0))
  /\ (let r := run 10 (clearscope_pipeline clearscope_two_tiles) in
      fst r = Raise (AttributeError "current_tile")
      /\ self (snd r) !! "tile_processed" = Some (VInt 0))
  /\ (let r := (_ ← self_set "current_tile" (VList [VInt 0; VInt 0]);
                process_tile (Some stub_tile))
                 (default_pipeline "acq" raster_2x2) in
      fst r = Raise (AttributeError "n_col")
      /\ self (snd r) !! "tile_processed" = Some (VInt 0)).
Proof. repeat split; vm_compute; reflexivity. Qed.

(** ** The burst watcher *)

Lemma reads_only_bind {A B} (m : M A) (k : A -> M B) :
  reads_only m -> (forall a, reads_only (k a)) -> reads_only (m ≫= k).
Proof.
  intros Hm Hk st. specialize (Hm st). unfold mbind, M_bind.
  destruct (m st) as [[a|e|] st1]; cbn [snd] in *; [|done..].
  by rewrite Hk.
Qed.

Lemma reads_only_get_tile (path : string) :
  reads_only (call_base "_get_tile" (_get_tile path)).
Proof.
  assert (forall m, reads_only (bound_method m)) as Hb.
  { intros m st. unfold bound_method. by destruct (resolve _ _). }
  unfold call_base, _get_tile, call_clearscope.
  repeat first [ apply reads_only_bind; [|intros] | apply Hb | done
               | match goal with
                 | |- reads_only (match ?x with _ => _ end) => destruct x
                 end ].
Qed.

(** Every poll appends every path of the scan to the buffer, whether or not
    the path is in the buffer already or was taken out of it before. *)
Lemma burst_poll_appends (st : pstate) (p : string) (l : list val) :
  self st !! "path" = Some (VStr p) ->
  buffer_of st = Some (VList l) ->
  buffer_of (snd (clearscopeRunningPipeline__is_new_tile_available st))
  = Some (VList (l ++ (VStr <$> glob_paths (path_join p "000000_*_*c/") (env st)))).
Proof.
  unfold buffer_of. intros Hp Hl.
  unfold clearscopeRunningPipeline__is_new_tile_available, buffer_extend.
  repeat mstep.
  destruct (glob_paths _ _) as [|x paths] eqn:Hg.
  - destruct l as [|y l]; cbn [fmap list_fmap app is_empty_list];
      cbn [snd self]; attr.
  - assert (reads_only (call_base "_get_tile" (_get_tile x)
                          ≫= fun tile => mret (RPair true (Some tile)))) as R.
    { apply reads_only_bind; [apply reads_only_get_tile|done]. }
    destruct l as [|y l]; cbn [fmap list_fmap app]; rewrite R; attr.
Qed.

(** A scan that finds nothing, while paths are still in the buffer, makes
    the poll end without a [return]: the answer is [None], not a pair. *)
Lemma burst_poll_falls_through (st : pstate) (p : string) (x : val) (l : list val) :
  self st !! "path" = Some (VStr p) ->
  buffer_of st = Some (VList (x :: l)) ->
  glob_paths (path_join p "000000_*_*c/") (env st) = [] ->
  fst (clearscopeRunningPipeline__is_new_tile_available st) = Ok RNone.
Proof.
  unfold buffer_of. intros Hp Hl Hg.
  unfold clearscopeRunningPipeline__is_new_tile_available, buffer_extend.
  repeat mstep. by rewrite Hg.
Qed.

(** C3. The burst watcher does not answer the head of its buffer but the
    head of the current scan.  With two tile directories on disk, the first
    poll answers the first one; once it is taken out of the buffer, as the
    run loop does after processing, the buffer holds the second directory
    alone, and the next poll answers the first directory again.  And when
    the directory of tile 1 is first listed after the directory of tile 2
    was enqueued, the poll answers tile 1 ahead of the buffer head. *)
Theorem burst_poll_answers_scan_head :
  (let st0 := clearscope_pipeline clearscope_two_tiles in
   let r1 := clearscopeRunningPipeline__is_new_tile_available st0 in
   let st2 := snd (buffer_pop0 (snd r1)) in
   let r2 := clearscopeRunningPipeline__is_new_tile_available st2 in
   answered (fst r1) = Some (tile_1 +:+ "/")
   /\ buffer_of st2 = Some (VList [VStr (tile_2 +:+ "/")])
   /\ answered (fst r2) = Some (tile_1 +:+ "/")
   /\ buffer_of (snd r2)
      = Some (VList [VStr (tile_2 +:+ "/"); VStr (tile_1 +:+ "/");
                     VStr (tile_2 +:+ "/")]))
  /\ (let st0 := clearscope_pipeline late_first_tile in
      let r1 := clearscopeRunningPipeline__is_new_tile_available st0 in
      let r2 := (_ ← sleep; clearscopeRunningPipeline__is_new_tile_available)
                  (snd r1) in
      answered (fst r1) = Some (tile_2 +:+ "/")
      /\ buffer_of (snd r1) = Some (VList [VStr (tile_2 +:+ "/")])
      /\ answered (fst r2) = Some (tile_1 +:+ "/")
      /\ buffer_of (snd r2)
         = Some (VList [VStr (tile_2 +:+ "/"); VStr (tile_1 +:+ "/");
                        VStr (tile_2 +:+ "/")])).
Proof. repeat split; vm_compute; reflexivity. Qed.

(** C4. Two polls in a row over the same two directories: the second poll
    appends both paths again, and the buffer holds each of them twice. *)
Theorem burst_poll_enqueues_again :
  let st0 := clearscope_pipeline clearscope_two_tiles in
  let st1 := snd (clearscopeRunningPipeline__is_new_tile_available st0) in
  let st2 := snd (clearscopeRunningPipeline__is_new_tile_available st1) in
  buffer_of st1 = Some (VList [VStr (tile_1 +:+ "/"); VStr (tile_2 +:+ "/")])
  /\ buffer_of st2
     = Some (VList [VStr (tile_1 +:+ "/"); VStr (tile_2 +:+ "/");
                    VStr (tile_1 +:+ "/"); VStr (tile_2 +:+ "/")]).
Proof. repeat split; vm_compute; reflexivity. Qed.


(** ** What a run does to the disk *)

Lemma quiet_same {A} (m : M A) : (forall st, snd (m st) = st) -> quiet m.
Proof.
  intros H st. exists []. rewrite H, app_nil_r. done.
Qed.

Lemma quiet_bind {A B} (m : M A) (k : A -> M B) :
  quiet m -> (forall a, quiet (k a)) -> quiet (m ≫= k).
Proof.
  intros Hm Hk st. destruct (Hm st) as (e1 & T1 & F1 & L1).
  unfold mbind, M_bind. destruct (m st) as [[a|e|] st1]; cbn [snd] in *.
  - destruct (Hk a st1) as (e2 & T2 & F2 & L2). exists (e1 ++ e2)%list.
    rewrite T2, T1, L2, L1, app_assoc, forallb_app, F1, F2. done.
  - by exists e1.
  - by exists e1.
Qed.

Lemma quiet_mret {A} (a : A) : quiet (mret a).
Proof. by apply quiet_same. Qed.

Lemma quiet_lift {A} (o : outcome A) : quiet (lift o).
Proof. by apply quiet_same. Qed.

Lemma quiet_raise {A} (e : exn) : quiet (raise e : M A).
Proof. by apply quiet_same. Qed.

Lemma quiet_out_of_fuel {A} : quiet (out_of_fuel : M A).
Proof. by apply quiet_same. Qed.

Lemma quiet_self_get (name : string) : quiet (self_get name).
Proof. by apply quiet_same. Qed.

Lemma quiet_self_set (name : string) (v : val) : quiet (self_set name v).
Proof. intros st. exists []. by rewrite app_nil_r. Qed.

Lemma quiet_self_call {A} (f : obj -> outcome A) : quiet (self_call f).
Proof. by apply quiet_same. Qed.

Lemma quiet_bound_method (m : string) : quiet (bound_method m).
Proof. apply quiet_same. intros st. unfold bound_method. by destruct (resolve _ _). Qed.

Lemma quiet_get_env : quiet get_env.
Proof. by apply quiet_same. Qed.

Lemma quiet_emit (ev : event) : erases ev = false -> quiet (emit ev).
Proof. intros H st. exists [ev]. cbn. by rewrite H. Qed.

Lemma quiet_sleep : quiet sleep.
Proof. intros st. by exists [EvSleep]. Qed.

Lemma quiet_read_file (p : string) : quiet (read_file p).
Proof. apply quiet_same. intros st. unfold read_file. by destruct (exists_on_disk _ _). Qed.

Lemma quiet_pyapr_read (callee p : string) : quiet (pyapr_read callee p).
Proof. apply quiet_same. intros st. unfold pyapr_read. by destruct (exists_on_disk _ _). Qed.

Lemma quiet_readlines (p : string) : quiet (readlines p).
Proof. apply quiet_same. intros st. unfold readlines. by destruct (find _ _). Qed.

Lemma quiet_unpack (r : pyret) : quiet (unpack r).
Proof. destruct r; by apply quiet_same. Qed.

Create HintDb quiet discriminated.
#[local] Hint Resolve quiet_mret quiet_lift quiet_raise quiet_out_of_fuel
  quiet_self_get quiet_self_set quiet_self_call quiet_bound_method
  quiet_get_env quiet_sleep quiet_read_file quiet_pyapr_read quiet_readlines
  quiet_unpack : quiet.
#[local] Hint Extern 1 (quiet (emit _)) => apply quiet_emit; reflexivity : quiet.

(** Quietness of a compound statement, by its structure. *)
Ltac quiet :=
  repeat first
    [ solve [auto 3 with quiet nocore]
    | apply quiet_bind; [|intros]
    | match goal with
      | |- quiet (if ?b then _ else _) => destruct b
      | |- quiet (match ?x with _ => _ end) => destruct x
      end ].

Lemma quiet_glob (pattern : string) : quiet (glob pattern).
Proof. unfold glob. quiet. Qed.
#[local] Hint Resolve quiet_glob : quiet.

Lemma quiet_mapM {A B} (f : A -> M B) (l : list A) :
  (forall a, quiet (f a)) -> quiet (mapM f l).
Proof. intros Hf. induction l as [|x l IH]; cbn [mapM]; quiet. Qed.
#[local] Hint Resolve quiet_mapM : quiet.

Lemma quiet_load_data (t : runningTile) (p : string) : quiet (_load_data t p).
Proof.
  unfold _load_data, _load_colm, _load_clearscope, _load_raw. quiet.
Qed.
#[local] Hint Resolve quiet_load_data : quiet.

Lemma quiet_load_tile (t : runningTile) : quiet (load_tile t).
Proof. unfold load_tile. quiet. Qed.

Lemma quiet_check_conversion (t : runningTile) : quiet (_check_conversion t).
Proof. unfold _check_conversion, erase_if. quiet. Qed.

Lemma quiet_convert_to_apr (t : runningTile) : quiet (_convert_to_apr t).
Proof. unfold _convert_to_apr. quiet. Qed.

Lemma quiet_get_tile (path : string) : quiet (_get_tile path).
Proof. unfold _get_tile, call_clearscope. quiet. Qed.

Lemma quiet_update_next_tile : quiet _update_next_tile.
Proof. unfold _update_next_tile. quiet. Qed.
#[local] Hint Resolve quiet_load_tile quiet_check_conversion
  quiet_convert_to_apr quiet_get_tile quiet_update_next_tile : quiet.

Lemma quiet_poll : quiet call__is_new_tile_available.
Proof.
  unfold call__is_new_tile_available, baseRunningPipeline__is_new_tile_available,
    clearscopeRunningPipeline__is_new_tile_available, buffer_extend, call_base.
  quiet.
Qed.

Lemma quiet_process_tile (t : option runningTile) : quiet (process_tile t).
Proof. unfold process_tile, call__pre_stitch, call_base. quiet. Qed.
#[local] Hint Resolve quiet_poll quiet_process_tile : quiet.

Lemma quiet_run (fuel : nat) : quiet (run fuel).
Proof.
  assert (quiet more_tiles) as Hmore by (unfold more_tiles; quiet).
  assert (quiet buffer_pop0) as Hpop by (unfold buffer_pop0; quiet).
  assert (forall n, quiet (baseRunningPipeline_run n)) as Hb.
  { induction n as [|n IH]; cbn [baseRunningPipeline_run]; quiet. }
  assert (forall n, quiet (clearscopeRunningPipeline_run n)) as Hc.
  { induction n as [|n IH]; cbn [clearscopeRunningPipeline_run]; quiet. }
  unfold run. quiet.
Qed.

Lemma was_removed_app (p : string) (t evs : list event) :
  forallb (fun ev => negb (erases ev)) evs = true ->
  was_removed p (t ++ evs)%list = was_removed p t.
Proof.
  intros H. unfold was_removed. rewrite existsb_app.
  assert (existsb (fun ev => match ev with
                           | EvRemove q => String.eqb p q
                           | _ => false
                           end) evs = false) as ->.
  { induction evs as [|ev evs IH]; [done|]. cbn in *.
    apply andb_prop in H as [H1 H2]. rewrite (IH H2). by destruct ev. }
  apply orb_false_r.
Qed.

(** The other branch is live: with a successful check the same statement
    calls [_erase_from_disk], which removes a [tiff3D] tile from disk. *)
Example erase_if_true_erases :
  trace (env (snd (erase_if true stub_tile (default_pipeline "acq" raster_2x2))))
  = [EvCall "_erase_from_disk" "acq/0_0.tif"; EvRemove "acq/0_0.tif"].
Proof. reflexivity. Qed.

(** C6. The raw data of a tile is erased only on a successful integrity
    check, and the check of the source never succeeds: the statement that
    follows the check does nothing when [conversion_ok] is false;
    [_check_conversion], where [conversion_ok] is always false, returns and
    changes nothing; and a run of either pipeline, from any state and for any
    number of iterations, neither calls [_erase_from_disk] nor removes a file,
    so that every raw file stays on disk after its conversion. *)
Theorem erase_requires_successful_check :
  (forall tile st, erase_if false tile st = (Ok tt, st))
  /\ (forall tile st, _check_conversion tile st = (Ok tt, st))
  /\ (forall fuel st,
        (exists evs,
            trace (env (snd (run fuel st))) = (trace (env st) ++ evs)%list
            /\ forallb (fun ev => negb (erases ev)) evs = true)
        /\ forall p, was_removed p (trace (env (snd (run fuel st))))
                     = was_removed p (trace (env st))).
Proof.
  split; [done|split; [done|]].
  intros fuel st. destruct (quiet_run fuel st) as (evs & T & F & _). split.
  - by exists evs.
  - intros p. rewrite T. by apply was_removed_app.
Qed.

(** ** Waiting for the acquisition settings *)

Lemma list_ascii_of_string_app (x y : string) :
  list_ascii_of_string (x +:+ y)
  = (list_ascii_of_string x ++ list_ascii_of_string y)%list.
Proof.
  induction x as [|a x IH]; [done|].
  change (String a x +:+ y) with (String a (x +:+ y)).
  cbn [list_ascii_of_string]. by rewrite IH.
Qed.

Lemma strip_trailing_slash_settings (a : string) :
  strip_trailing_slash (path_join a "*_AcquireSettings.txt") = None.
Proof.
  unfold path_join, strip_trailing_slash.
  destruct (_ || _); rewrite !list_ascii_of_string_app, !rev_app_distr; done.
Qed.

Lemma filter_none {A} (P : A -> Prop) `{forall x, Decision (P x)} (l : list A) :
  (forall x, x ∈ l -> ~ P x) -> filter P l = [].
Proof.
  induction l as [|x l IH]; [done|]. intros Hl.
  rewrite filter_cons_False by (apply Hl; left).
  apply IH. intros y Hy. apply Hl. by right.
Qed.

Lemma glob_paths_settings_nil (a : string) (w : world) :
  (forall e, e ∈ timeline w (now w) ->
     wildcard_match (path_join a "*_AcquireSettings.txt") true (e_path e) = false) ->
  glob_paths (path_join a "*_AcquireSettings.txt") w = [].
Proof.
  intros H. unfold glob_paths. rewrite strip_trailing_slash_settings.
  rewrite filter_none; [done|]. intros e He.
  apply list_elem_of_filter in He as [_ He]. rewrite (H e He). done.
Qed.

Lemma wait_for_settings_starves (root : string) (fuel : nat) (st : pstate) :
  self st !! "path" = Some (VStr root) ->
  (forall t e, e ∈ timeline (env st) t ->
     wildcard_match (path_join (path_join root "0001") "*_AcquireSettings.txt")
                    true (e_path e) = false) ->
  exists st',
    wait_for_settings fuel [] st = (OutOfFuel, st')
    /\ trace (env st') = (trace (env st) ++ retry_events root fuel)%list.
Proof.
  revert st. induction fuel as [|fuel IH]; intros st Hp Hd.
  - exists st. split; [done|]. unfold retry_events. cbn. by rewrite app_nil_r.
  - cbn [wait_for_settings]. repeat mstep.
    rewrite glob_paths_settings_nil by (cbn [timeline now]; intros; by eapply Hd).
    set (st1 := {| self := self st |}).
    destruct (IH st1 Hp Hd) as (st' & E & T). exists st'. split; [done|].
    rewrite T. unfold st1, retry_events. cbn [env trace replicate concat].
    by rewrite <- !app_assoc.
Qed.

(** C10. When the first scan of [{path}/0001] finds no settings file, every
    later scan is made in [{path}/0001/0001]; as long as no settings file
    exists there, no number of retries ends the wait of [__init__], also
    when the settings file appears in [{path}/0001] in the meantime. *)
Theorem settings_wait_never_completes
    (path : string) (n_channels : Z) (w : world) (fuel : nat) :
  let root := path_join path "0001" in
  let r := clearscopeRunningPipeline___init__ fuel path n_channels
             (new cls_clearscope w) in
  glob_paths (path_join root "*_AcquireSettings.txt") w = [] ->
  (forall t e, e ∈ timeline w t ->
     wildcard_match (path_join (path_join root "0001") "*_AcquireSettings.txt")
                    true (e_path e) = false) ->
  fst r = OutOfFuel
  /\ trace (env (snd r))
     = (trace w ++ EvGlob (path_join root "*_AcquireSettings.txt")
                :: retry_events root fuel)%list.
Proof.
  intros root r H1 H2. subst r.
  unfold clearscopeRunningPipeline___init__, new, call_clearscope.
  do 2 mstep. rewrite bind_assoc. mstep.
  unfold _parse_acquisition_settings. repeat mstep.
  fold root. rewrite H1.
  match goal with
  | |- context [ (wait_for_settings fuel [] ≫= ?k) ?st ] =>
      destruct (wait_for_settings_starves root fuel st) as (st' & E & T);
        [attr | exact H2 | rewrite (bind_OutOfFuel _ k st st' E)]
  end.
  cbn [fst snd]. split; [done|]. rewrite T. cbn [env trace].
  by rewrite <- app_assoc.
Qed.

Lemma settings_wait_never_completes_witness :
  let r := clearscopeRunningPipeline___init__ 3 "acq" 1
             (new cls_clearscope (world_of late_settings)) in
  fst r = OutOfFuel
  /\ trace (env (snd r))
     = [EvGlob "acq/0001/*_AcquireSettings.txt";
        EvSleep; EvGlob "acq/0001/0001/*_AcquireSettings.txt";
        EvSleep; EvGlob "acq/0001/0001/*_AcquireSettings.txt";
        EvSleep; EvGlob "acq/0001/0001/*_AcquireSettings.txt"].
Proof.
  apply (settings_wait_never_completes "acq" 1 (world_of late_settings) 3).
  - reflexivity.
  - intros [|t] e He; cbn in He.
    + by apply elem_of_nil in He.
    + apply list_elem_of_singleton in He as ->. reflexivity.
Defined.

(** The same pipeline starts at once when the settings file is there at the
    first scan. *)
Example settings_found_at_first_scan :
  fst (clearscopeRunningPipeline___init__ 0 "acq" 1
         (new cls_clearscope (world_of (still [settings_3x2]))))
  = Ok tt.
Proof. reflexivity. Qed.

(** ** The grid read from the acquisition settings *)




(** Split a hypothesis "this sequence returned" at its first statement. *)
Ltac minv H :=
  let a := fresh "a" in
  let st := fresh "st" in
  let E := fresh "E" in
  apply bind_inv_Ok in H as (a & st & E & H).




(** The settings declare 3 by 2; the pipeline works on 2 by 2. *)
Example rectangular_settings_give_square_grid :
  let st := clearscope_pipeline clearscope_two_tiles in
  (match self st !! "acq_param" with
   | Some (VDict d) => (d !! "ScanGridX", d !! "ScanGridY")
   | _ => (None, None)
   end) = (Some (VFloat 3), Some (VFloat 2))
  /\ self st !! "nrow" = Some (VFloat 2)
  /\ self st !! "ncol" = Some (VFloat 2)
  /\ self st !! "n_tiles" = Some (VFloat 4).
Proof. repeat split; vm_compute; reflexivity. Qed.

(** * More properties of the code *)

(** ** Loading a tile *)

(** X1. Loading is idempotent: a tile that [load_tile] returned is returned
    as it is by any later [load_tile], in any state of the world and
    without touching it. *)
Theorem load_tile_idempotent (t t' : runningTile) (st st' : pstate) :
  load_tile t st = (Ok t', st') ->
  forall st2, load_tile t' st2 = (Ok t', st2).
Proof.
  unfold load_tile. intros H st2.
  destruct (str_is (t_type t) "apr") eqn:Ha.
  - destruct (t_apr t) as [d|] eqn:Hd.
    + injection H as <- <-. by rewrite Ha, Hd.
    + apply bind_inv_Ok in H as (u & st1 & _ & H). injection H as <- <-.
      cbn [t_type set_apr t_apr]. by rewrite Ha.
  - destruct (t_data t) as [d|] eqn:Hd.
    + injection H as <- <-. by rewrite Ha, Hd.
    + apply bind_inv_Ok in H as (u & st1 & _ & H). injection H as <- <-.
      cbn [t_type set_data t_data]. by rewrite Ha.
Qed.

Lemma load_tile_idempotent_witness :
  let st := default_pipeline "acq" raster_2x2 in
  load_tile (set_data stub_tile ["acq/0_0.tif"]) st
  = (Ok (set_data stub_tile ["acq/0_0.tif"]), st).
Proof.
  apply (load_tile_idempotent stub_tile (set_data stub_tile ["acq/0_0.tif"])
           (default_pipeline "acq" raster_2x2)
           (default_pipeline "acq" raster_2x2)).
  reflexivity.
Defined.

(** X2. A tile type other than the five that [_load_data] knows is refused
    with [TypeError], the message naming the type, before anything is read;
    this includes ['tiff2D'], which the docstring of the pipeline offers. *)
Theorem load_data_unsupported_type
    (t : runningTile) (s path : string) (st : pstate) :
  t_type t = VStr s ->
  s ∉ ["colm"; "clearscope"; "tiff3D"; "apr"; "raw"] ->
  _load_data t path st
  = (Raise (TypeError ("Error: image type " +:+ s +:+ " not supported.")), st)
  /\ (t_data t = None ->
      load_tile t st
      = (Raise (TypeError ("Error: image type " +:+ s +:+ " not supported.")), st)).
Proof.
  intros Ht Hs. rewrite !not_elem_of_cons in Hs.
  destruct Hs as (H1 & H2 & H3 & H4 & H5 & _).
  assert (forall k, s <> k -> str_is (t_type t) k = false) as Hk.
  { intros k Hne. rewrite Ht. cbn. by apply String.eqb_neq. }
  assert (forall p, _load_data t p st
                    = (Raise (TypeError ("Error: image type " +:+ s
                                         +:+ " not supported.")), st))
    as Hl.
  { intros p. unfold _load_data. rewrite !Hk by done. by rewrite Ht. }
  split; [apply Hl|]. intros Hd. unfold load_tile.
  rewrite (Hk "apr" H4), Hd. by rewrite (bind_Raise _ _ _ _ _ (Hl _)).
Qed.

Lemma load_data_unsupported_type_witness :
  let t := {| t_path := "acq/0_0"; t_row := 0; t_col := 0;
              t_type := VStr "tiff2D"; t_frame_size := 2048;
              t_folder_root := VStr "acq"; t_channel := Some 0;
              t_n_channels := VInt 1; t_data := None; t_apr := None |} in
  let st := default_pipeline "acq" raster_2x2 in
  _load_data t "acq/0_0" st
  = (Raise (TypeError "Error: image type tiff2D not supported."), st)
  /\ (t_data t = None ->
      load_tile t st
      = (Raise (TypeError "Error: image type tiff2D not supported."), st)).
Proof.
  apply (load_data_unsupported_type _ "tiff2D"); [reflexivity|].
  rewrite !not_elem_of_cons. repeat split; try discriminate. apply not_elem_of_nil.
Defined.

(** ** Erasing a tile *)

Lemma filter_conj {A} (P Q R : A -> Prop)
    `{!forall x, Decision (P x)} `{!forall x, Decision (Q x)}
    `{!forall x, Decision (R x)} (l : list A) :
  (forall x, R x <-> P x /\ Q x) -> filter R l = filter Q (filter P l).
Proof.
  intros Hiff. induction l as [|x l IH]; [done|].
  destruct (decide (P x)) as [Hp|Hp].
  - rewrite (filter_cons_True P) by done.
    destruct (decide (Q x)) as [Hq|Hq].
    + rewrite (filter_cons_True R), (filter_cons_True Q) by (done || by apply Hiff).
      by rewrite IH.
    + rewrite (filter_cons_False R), (filter_cons_False Q)
        by (done || by intros [_ ?]%Hiff).
      done.
  - rewrite (filter_cons_False P), (filter_cons_False R)
      by (done || by intros [? _]%Hiff).
    done.
Qed.

Lemma was_removed_snoc_remove (q p : string) (t : list event) (m a : string) :
  was_removed q (t ++ [EvCall m a; EvRemove p])%list
  = was_removed q t || String.eqb q p.
Proof.
  unfold was_removed. rewrite existsb_app. cbn. by rewrite orb_false_r.
Qed.

(** X3. [_erase_from_disk] on a tile that is not of type ['tiff3D'] returns
    and leaves the disk and the pipeline as they are. *)
Theorem erase_from_disk_other_types (t : runningTile) (st : pstate) :
  str_is (t_type t) "tiff3D" = false ->
  fst (_erase_from_disk t st) = Ok tt
  /\ on_disk (env (snd (_erase_from_disk t st))) = on_disk (env st)
  /\ self (snd (_erase_from_disk t st)) = self st.
Proof.
  intros H. unfold _erase_from_disk. rewrite bind_emit, H.
  unfold mret, M_ret. cbn [fst snd env self]. repeat split.
  unfold on_disk. cbn [now timeline trace].
  apply list_filter_iff. intros e. cbn [trace].
  unfold was_removed. rewrite existsb_app. cbn. by rewrite !orb_false_r.
Qed.

Lemma erase_from_disk_other_types_witness :
  let t := {| t_path := tile_1 +:+ "/"; t_row := 0; t_col := 0;
              t_type := VStr "clearscope"; t_frame_size := 2048;
              t_folder_root := VStr "acq/0001"; t_channel := Some 0;
              t_n_channels := VInt 1; t_data := None; t_apr := None |} in
  let st := clearscope_pipeline clearscope_two_tiles in
  fst (_erase_from_disk t st) = Ok tt
  /\ on_disk (env (snd (_erase_from_disk t st))) = on_disk (env st)
  /\ self (snd (_erase_from_disk t st)) = self st.
Proof. apply erase_from_disk_other_types. reflexivity. Defined.

(** X4. [_erase_from_disk] on a ['tiff3D'] tile whose path is a file on
    disk returns and removes that file and no other: what is on disk
    afterwards is what was there before, less the entries with the path of
    the tile.  When the path is a directory it raises [IsADirectoryError],
    when nothing is there [FileNotFoundError], and in both cases nothing is
    removed. *)
Theorem erase_from_disk_tiff3D (t : runningTile) (st : pstate) :
  str_is (t_type t) "tiff3D" = true ->
  let r := _erase_from_disk t st in
  match find (fun e => String.eqb (e_path e) (t_path t)) (on_disk (env st)) with
  | Some e =>
      if e_is_dir e
      then fst r = Raise (IsADirectoryError (t_path t))
           /\ on_disk (env (snd r)) = on_disk (env st)
      else fst r = Ok tt
           /\ on_disk (env (snd r))
              = filter (fun e => e_path e <> t_path t) (on_disk (env st))
           /\ exists_on_disk (t_path t) (env (snd r)) = false
  | None =>
      fst r = Raise (FileNotFoundError (t_path t))
      /\ on_disk (env (snd r)) = on_disk (env st)
  end.
Proof.
  intros H r. subst r.
  set (w1 := {| now := now (env st); timeline := timeline (env st);
                trace := (trace (env st)
                          ++ [EvCall "_erase_from_disk" (t_path t)])%list |}).
  assert (on_disk w1 = on_disk (env st)) as Hsame.
  { unfold on_disk. cbn [now timeline trace w1].
    apply list_filter_iff. intros e.
    unfold was_removed. rewrite existsb_app. cbn. by rewrite !orb_false_r. }
  assert (_erase_from_disk t st
          = match find (fun e => String.eqb (e_path e) (t_path t))
                       (on_disk (env st)) with
            | Some e =>
                if e_is_dir e
                then (Raise (IsADirectoryError (t_path t)),
                      {| self := self st; klass := klass st; env := w1 |})
                else (Ok tt,
                      {| self := self st; klass := klass st;
                         env := {| now := now w1; timeline := timeline w1;
                                   trace := (trace w1 ++ [EvRemove (t_path t)])%list |} |})
            | None => (Raise (FileNotFoundError (t_path t)),
                       {| self := self st; klass := klass st; env := w1 |})
            end) as ->.
  { unfold _erase_from_disk. rewrite bind_emit, H. fold w1.
    unfold os_remove. cbn [env]. rewrite Hsame.
    destruct (find _ _) as [e|]; [|done]. by destruct (e_is_dir e). }
  destruct (find _ _) as [e|] eqn:Hf; [|done].
  destruct (e_is_dir e); cbn [fst snd env]; [done|].
  assert (on_disk {| now := now w1; timeline := timeline w1;
                     trace := (trace w1 ++ [EvRemove (t_path t)])%list |}
          = filter (fun e => e_path e <> t_path t) (on_disk (env st))) as Hd.
  { unfold on_disk. cbn [now timeline trace w1]. rewrite <- app_assoc.
    apply filter_conj. intros e'. cbn [app].
    rewrite was_removed_snoc_remove, negb_orb, andb_true_iff.
    rewrite <- String.eqb_neq.
    destruct (String.eqb (e_path e') (t_path t)); cbn; intuition congruence. }
  repeat split; [exact Hd|].
  unfold exists_on_disk. rewrite Hd.
  apply not_true_is_false. intros (e' & He1 & He2)%existsb_exists.
  apply list_elem_of_In, list_elem_of_filter in He1 as [Hne _].
  apply String.eqb_eq in He2. done.
Qed.

Lemma erase_from_disk_tiff3D_witness :
  let st := default_pipeline "acq" (still [file "acq/0_0.tif" []; file "acq/0_1.tif" []]) in
  let r := _erase_from_disk stub_tile st in
  fst r = Ok tt
  /\ on_disk (env (snd r))
     = filter (fun e => e_path e <> "acq/0_0.tif") (on_disk (env st))
  /\ exists_on_disk "acq/0_0.tif" (env (snd r)) = false.
Proof.
  exact (erase_from_disk_tiff3D stub_tile
           (default_pipeline "acq" (still [file "acq/0_0.tif" []; file "acq/0_1.tif" []]))
           eq_refl).
Defined.

(** The same call on a directory: refused, and the directory stays. *)
Example erase_from_disk_directory :
  let st := default_pipeline "acq" (still [directory "acq/0_0.tif"]) in
  let r := _erase_from_disk stub_tile st in
  fst r = Raise (IsADirectoryError "acq/0_0.tif")
  /\ exists_on_disk "acq/0_0.tif" (env (snd r)) = true.
Proof. split; reflexivity. Qed.

(** ** Conversion and compression *)



(** X6. [deactivate_compression] undoes [set_compression]: on a pipeline
    whose compression is off, as after [__init__], setting the compression and
    deactivating it gives back the same object. *)
Theorem deactivate_undoes_set_compression (st : pstate) (q bg : Z) :
  self st !! "compression" = Some (VBool false) ->
  self st !! "bg" = Some VNone ->
  self st !! "quantization_factor" = Some VNone ->
  (_ ← set_compression q bg; deactivate_compression) st = (Ok tt, st).
Proof.
  destruct st as [s c w]. cbn [self]. intros Hc Hb Hq.
  unfold set_compression, deactivate_compression. repeat mstep.
  unfold self_set, setattr. cbn [self klass env]. do 2 f_equal.
  apply map_eq. intros k. rewrite !lookup_insert.
  repeat case_decide; subst; done.
Qed.

Lemma deactivate_undoes_set_compression_witness :
  let st := clearscope_pipeline clearscope_two_tiles in
  (_ ← set_compression 4 120; deactivate_compression) st = (Ok tt, st).
Proof.
  apply deactivate_undoes_set_compression; vm_compute; reflexivity.
Defined.

(** ** Tile directories read back *)

(** X7. The channel is read back from the path of a tile directory: for a
    directory path without three underscores in a row, a tile number of at
    most six digits and a channel digit, [_get_channel] on
    [{dir}000000_{number}___{channel}c/] answers the channel. *)
Theorem get_channel_of_tile_path (self : obj) (dir : string) (n ch : Z) :
  no_triple_underscore dir = true -> 0 <= n <= 999999 -> 0 <= ch <= 9 ->
  _get_channel self (dir +:+ tile_dirname n ch +:+ "/") = Ok (Some ch).
Proof.
  intros Hdir Hn Hch. unfold _get_channel.
  rewrite re_findall_fmap, findall_tile_path by done.
  cbn [fmap list_fmap snd]. unfold py_int_of_digits.
  cbn [list_ascii_of_string fold_left].
  by rewrite digit_char_value.
Qed.

Lemma get_channel_of_tile_path_witness :
  _get_channel ∅ ("acq/run_1/0001/" +:+ tile_dirname 17 3 +:+ "/") = Ok (Some 3).
Proof.
  apply (get_channel_of_tile_path ∅ "acq/run_1/0001/" 17 3); [reflexivity|lia|lia].
Defined.

(** X8. Round trip of the serpentine numbering through the directory name:
    on a grid with rows of [ncol] tiles, [ncol] of at most six digits, the
    directory of the tile acquired at cell [(r, k)] is decoded by
    [_get_row_col] to [(r, k)]. *)
Theorem get_row_col_of_tile_path
    (self : obj) (v : val) (q : Q) (ncol : Z) (dir : string) (r k ch : Z) :
  self !! "ncol" = Some v -> number_of v = Some q -> (q == inject_Z ncol)%Q ->
  ncol <= 999999 ->
  no_triple_underscore dir = true ->
  0 <= r -> 0 <= k < ncol -> serpentine_index ncol r k <= 999999 ->
  0 <= ch <= 9 ->
  _get_row_col self (dir +:+ tile_dirname (serpentine_index ncol r k) ch +:+ "/")
  = Ok (r, k).
Proof.
  intros Hv Hq Hqc Hbound Hdir Hr Hk Hmax Hch.
  assert (1 <= serpentine_index ncol r k) as Hmin.
  { unfold serpentine_index. destruct (Z.even r); nia. }
  destruct (serpentine_index_decoded ncol r k Hk) as [Hd Hc].
  rewrite (get_row_col_tile_path self v q ncol) by (done || lia).
  by rewrite Hd, Hc.
Qed.

Lemma get_row_col_of_tile_path_witness :
  _get_row_col (self (clearscope_pipeline clearscope_two_tiles))
    ("acq/0001/" +:+ tile_dirname (serpentine_index 2 1 0) 0 +:+ "/")
  = Ok (1, 0).
Proof.
  apply (get_row_col_of_tile_path
           (self (clearscope_pipeline clearscope_two_tiles)) (VFloat 2) 2 2
           "acq/0001/" 1 0 0);
    first [ reflexivity | lia | (vm_compute; reflexivity) | (vm_compute; congruence) ].
Defined.

(** X9. On a clearscope pipeline with rows of at most six digits' length,
    [_get_tile] on the path of a tile directory gives the tile of that
    directory: the decoded cell and channel, the type and the root of the
    pipeline, nothing loaded; the pipeline is unchanged. *)
Theorem get_tile_of_tile_path
    (st : pstate) (v ftype root n_channels : val) (q : Q) (ncol : Z)
    (dir : string) (r k ch : Z) :
  klass st = cls_clearscope ->
  self st !! "ncol" = Some v -> number_of v = Some q -> (q == inject_Z ncol)%Q ->
  ncol <= 999999 ->
  self st !! "type" = Some ftype ->
  self st !! "path" = Some root ->
  self st !! "n_channels" = Some n_channels ->
  no_triple_underscore dir = true ->
  0 <= r -> 0 <= k < ncol -> serpentine_index ncol r k <= 999999 ->
  0 <= ch <= 9 ->
  let path := dir +:+ tile_dirname (serpentine_index ncol r k) ch +:+ "/" in
  call_base "_get_tile" (_get_tile path) st
  = (Ok {| t_path := path; t_row := r; t_col := k; t_type := ftype;
           t_frame_size := 2048; t_folder_root := root;
           t_channel := Some ch; t_n_channels := n_channels;
           t_data := None; t_apr := None |}, st).
Proof.
  destruct st as [s c w]. cbn [klass self]. intros -> Hv Hq Hqc Hbound Ht Hp Hn.
  intros Hdir Hr Hk Hmax Hch.
  assert (1 <= serpentine_index ncol r k) as Hmin.
  { unfold serpentine_index. destruct (Z.even r); nia. }
  pose proof (findall_tile_path dir (serpentine_index ncol r k) ch Hdir
                ltac:(lia) Hch) as Hfind.
  pose proof (get_row_col_tile_path s v q ncol dir (serpentine_index ncol r k) ch
                Hv Hq Hqc ltac:(lia) ltac:(lia) Hdir Hch) as Hrc.
  destruct (serpentine_index_decoded ncol r k Hk) as [Hd Hc].
  rewrite Hd, Hc in Hrc.
  set (path := dir +:+ tile_dirname (serpentine_index ncol r k) ch +:+ "/") in *.
  assert (_get_channel s path = Ok (Some ch)) as Hchan.
  { unfold _get_channel. rewrite re_findall_fmap, Hfind.
    cbn [fmap list_fmap snd]. unfold py_int_of_digits.
    cbn [list_ascii_of_string fold_left].
    by rewrite digit_char_value. }
  unfold call_base, _get_tile, call_clearscope. repeat mstep.
  erewrite bind_self_call by (cbn [self]; exact Hrc).
  cbv beta iota zeta. repeat mstep.
  erewrite bind_self_call by (cbn [self]; exact Hchan).
  repeat mstep. reflexivity.
Qed.

Lemma get_tile_of_tile_path_witness :
  let st := clearscope_pipeline clearscope_two_tiles in
  let path := "acq/0001/" +:+ tile_dirname (serpentine_index 2 1 0) 0 +:+ "/" in
  call_base "_get_tile" (_get_tile path) st
  = (Ok {| t_path := path; t_row := 1; t_col := 0; t_type := VStr "clearscope";
           t_frame_size := 2048; t_folder_root := VStr "acq/0001";
           t_channel := Some 0; t_n_channels := VInt 1;
           t_data := None; t_apr := None |}, st).
Proof.
  apply (get_tile_of_tile_path (clearscope_pipeline clearscope_two_tiles)
           (VFloat 2) (VStr "clearscope") (VStr "acq/0001") (VInt 1) 2 2
           "acq/0001/" 1 0 0);
    first [ reflexivity | lia | (vm_compute; reflexivity) | (vm_compute; congruence) ].
Defined.

(** ** Neighbours of a tile *)

Lemma str_is_eq (v : val) (s : string) : str_is v s = true -> v = VStr s.
Proof.
  destruct v; cbn; try discriminate. by intros ->%String.eqb_eq.
Qed.

(** Loading one file of an ['apr'] tile: the file is read, nothing else. *)
Lemma load_data_apr (t : runningTile) (p : string) (st : pstate) :
  str_is (t_type t) "apr" = true ->
  _load_data t p st
  = if exists_on_disk p (env st) then (Ok [p], st)
    else (Raise (LibraryError "pyapr.io.read"), st).
Proof.
  intros Ht%str_is_eq. unfold _load_data. rewrite Ht. cbn [str_is String.eqb Ascii.eqb Bool.eqb andb].
  unfold mbind, M_bind, pyapr_read. by destruct (exists_on_disk p (env st)).
Qed.

Lemma mapM_load_data_apr (t : runningTile) (ps : list string) (st : pstate) :
  str_is (t_type t) "apr" = true ->
  mapM (_load_data t) ps st
  = match find (fun p => negb (exists_on_disk p (env st))) ps with
    | Some q => (Raise (LibraryError "pyapr.io.read"), st)
    | None => (Ok ((fun p => [p]) <$> ps), st)
    end.
Proof.
  intros Ht. induction ps as [|p ps IH]; [done|].
  cbn [mapM find]. unfold mbind at 1, M_bind at 1.
  rewrite (load_data_apr t p st Ht).
  destruct (exists_on_disk p (env st)); cbn [negb]; [|done].
  unfold mbind at 1, M_bind at 1. rewrite IH.
  by destruct (find _ ps).
Qed.

(** X10. For a tile that is not of type ['apr'], the neighbours are loaded
    once: after a [load_neighbors] that returned, [load_neighbors] and
    [load_neighbors_segmentation] return at once, with the tile as it is and
    nothing read. *)
Theorem load_neighbors_once
    (t : runningTile) (x x' : tileAux) (st st' : pstate) :
  str_is (t_type t) "apr" = false ->
  load_neighbors t x st = (Ok x', st') ->
  forall (load_tree : bool) (st2 : pstate),
    load_neighbors t x' st2 = (Ok x', st2)
    /\ load_neighbors_segmentation t x' load_tree st2 = (Ok x', st2).
Proof.
  intros Ht H load_tree st2.
  assert (data_neighbors x' <> None) as Hd.
  { unfold load_neighbors in H.
    destruct (data_neighbors x) as [d|] eqn:Hx.
    - injection H as <- <-. by rewrite Hx.
    - rewrite Ht in H. do 2 minv H. by injection H as <- <-. }
  unfold load_neighbors, load_neighbors_segmentation.
  by destruct (data_neighbors x').
Qed.

Lemma load_neighbors_once_witness :
  let t := stub_tile in
  let x := {| neighbors_path := Some ["acq/0_1.tif"];
              data_neighbors := Some [["acq/0_1.tif"]];
              apr_neighbors := None; parts_neighbors := None;
              lazy_data := None |} in
  let st2 := default_pipeline "acq" (still []) in
  load_neighbors t x st2 = (Ok x, st2)
  /\ load_neighbors_segmentation t x false st2 = (Ok x, st2).
Proof.
  refine (load_neighbors_once stub_tile
            (tile_aux_init (Some ["acq/0_1.tif"])) _
            (default_pipeline "acq" (still [file "acq/0_1.tif" []]))
            (default_pipeline "acq" (still [file "acq/0_1.tif" []]))
            _ _ false (default_pipeline "acq" (still [])));
    reflexivity.
Defined.



(** X12. A tile made by the pipeline is given no [neighbors_path]: on such
    a tile, of any type, [load_neighbors] and [load_neighbors_segmentation]
    raise [TypeError] and read nothing. *)
Theorem pipeline_tile_has_no_neighbors
    (t : runningTile) (load_tree : bool) (st : pstate) :
  load_neighbors t (tile_aux_init None) st
  = (Raise (TypeError "'NoneType' object is not iterable"), st)
  /\ load_neighbors_segmentation t (tile_aux_init None) load_tree st
     = (Raise (TypeError "'NoneType' object is not iterable"), st).
Proof.
  unfold load_neighbors, load_neighbors_segmentation, tile_aux_init.
  cbn [data_neighbors neighbors_path iterate].
  by destruct (str_is (t_type t) "apr").
Qed.

Lemma load_neighbors_cc_loaded
    (x : tileAux) (pre : list (list string)) (ps : list string) (st : pstate) :
  apr_neighbors x = Some (pre ++ ((fun p => [p]) <$> ps))%list ->
  (forall p, p ∈ ps -> exists_on_disk p (env st) = true) ->
  load_neighbors_cc x false (length pre) ps st
  = (Ok ((fun p => [p]) <$> ps, cc_of <$> ps), st).
Proof.
  revert pre. induction ps as [|p ps IH]; intros pre Hx Hd; [done|].
  cbn [load_neighbors_cc negb]. unfold neighbor_apr. rewrite Hx.
  rewrite lookup_app_r by done. rewrite Nat.sub_diag. cbn [fmap list_fmap lookup list_lookup].
  rewrite bind_mret.
  assert (pyapr_read "pyapr.io.APRFile.open" p st = (Ok tt, st)) as Hr.
  { unfold pyapr_read. rewrite Hd; [done|by left]. }
  rewrite (bind_Ok _ _ _ _ _ Hr).
  assert (load_neighbors_cc x false (S (length pre)) ps st
          = (Ok ((fun p => [p]) <$> ps, cc_of <$> ps), st)) as Hrec.
  { replace (S (length pre)) with (length (pre ++ [[p]])%list)
      by (rewrite length_app; cbn; lia).
    apply IH.
    - rewrite Hx, <- app_assoc. done.
    - intros q Hq. apply Hd. by right. }
  by rewrite (bind_Ok _ _ _ _ _ Hrec).
Qed.

(** X13. [load_neighbors_segmentation] without [load_tree] needs the trees
    of the neighbours.  On an ['apr'] tile with a neighbour and no tree
    loaded it raises [TypeError] before any file is opened.  After a
    [load_neighbors] that returned it returns: the trees are kept, and the
    particles of each neighbour are replaced by its connected components. *)
Theorem segmentation_needs_neighbors
    (t : runningTile) (x : tileAux) (p : string) (ps : list string)
    (st : pstate) :
  str_is (t_type t) "apr" = true ->
  data_neighbors x = None ->
  apr_neighbors x = None ->
  neighbors_path x = Some (p :: ps) ->
  load_neighbors_segmentation t x false st
  = (Raise (TypeError "'NoneType' object is not subscriptable"), st)
  /\ (forall x1 st1,
        load_neighbors t x st = (Ok x1, st1) ->
        parts_neighbors x1 = Some ((fun p => [p]) <$> (p :: ps))
        /\ load_neighbors_segmentation t x1 false st1
           = (Ok {| neighbors_path := neighbors_path x1;
                    data_neighbors := None;
                    apr_neighbors := apr_neighbors x1;
                    parts_neighbors := Some (cc_of <$> (p :: ps));
                    lazy_data := lazy_data x1 |}, st1)).
Proof.
  intros Ht Hx Ha Hps. split.
  - unfold load_neighbors_segmentation.
    rewrite Hx, Ht, Hps. cbn [iterate]. rewrite bind_mret.
    cbn [load_neighbors_cc negb]. unfold neighbor_apr. rewrite Ha.
    by rewrite bind_assoc, bind_raise.
  - intros x1 st1 H. unfold load_neighbors in H.
    rewrite Hx, Ht, Hps in H. cbn [iterate] in H. rewrite bind_mret in H.
    unfold mbind, M_bind in H.
    rewrite (mapM_load_data_apr t (p :: ps) st Ht) in H.
    destruct (find _ (p :: ps)) as [q|] eqn:Hf; [done|].
    injection H as <- <-. split; [done|].
    unfold load_neighbors_segmentation.
    cbn [data_neighbors neighbors_path apr_neighbors lazy_data].
    rewrite Ht. cbn [iterate]. rewrite bind_mret.
    assert (load_neighbors_cc
              {| neighbors_path := Some (p :: ps); data_neighbors := None;
                 apr_neighbors := Some ((fun p => [p]) <$> (p :: ps));
                 parts_neighbors := Some ((fun p => [p]) <$> (p :: ps));
                 lazy_data := lazy_data x |} false 0 (p :: ps) st
            = (Ok ((fun p => [p]) <$> (p :: ps), cc_of <$> (p :: ps)), st))
      as Hcc.
    { apply (load_neighbors_cc_loaded _ []); [done|].
      intros q Hq. apply list_elem_of_In in Hq.
      pose proof (find_none _ _ Hf q Hq) as Hn. cbn beta in Hn.
      by apply negb_false_iff in Hn. }
    by rewrite (bind_Ok _ _ _ _ _ Hcc).
Qed.

Lemma segmentation_needs_neighbors_witness :
  let t := {| t_path := "acq/APR/ch0/0_0.apr"; t_row := 0; t_col := 0;
              t_type := VStr "apr"; t_frame_size := 2048;
              t_folder_root := VStr "acq"; t_channel := Some 0;
              t_n_channels := VInt 1; t_data := None; t_apr := None |} in
  let x := tile_aux_init (Some ["acq/APR/ch0/0_1.apr"]) in
  let x1 := {| neighbors_path := Some ["acq/APR/ch0/0_1.apr"];
               data_neighbors := None;
               apr_neighbors := Some [["acq/APR/ch0/0_1.apr"]];
               parts_neighbors := Some [["acq/APR/ch0/0_1.apr"]];
               lazy_data := None |} in
  let st := default_pipeline "acq" (still [file "acq/APR/ch0/0_1.apr" []]) in
  load_neighbors_segmentation t x false st
  = (Raise (TypeError "'NoneType' object is not subscriptable"), st)
  /\ load_neighbors t x st = (Ok x1, st)
  /\ load_neighbors_segmentation t x1 false st
     = (Ok {| neighbors_path := Some ["acq/APR/ch0/0_1.apr"];
              data_neighbors := None;
              apr_neighbors := Some [["acq/APR/ch0/0_1.apr"]];
              parts_neighbors := Some [["acq/APR/ch0/0_1.apr"; "segmentation cc"]];
              lazy_data := None |}, st).
Proof.
  intros t x x1 st.
  pose proof (segmentation_needs_neighbors t x "acq/APR/ch0/0_1.apr" [] st
                eq_refl eq_refl eq_refl eq_refl) as [H1 H2].
  split; [exact H1|]. split; [reflexivity|].
  exact (proj2 (H2 x1 st eq_refl)).
Defined.

(** ** Reading the acquisition settings *)

Lemma span_word_key (key rest : string) :
  forallb is_word_char (list_ascii_of_string key) = true ->
  span_word (key +:+ " = " +:+ rest) = (key, " = " +:+ rest).
Proof.
  induction key as [|a key IH]; intros Hk.
  - reflexivity.
  - cbn [list_ascii_of_string forallb] in Hk.
    apply andb_true_iff in Hk as [Ha Hk].
    change (String a key +:+ " = " +:+ rest)
      with (String a (key +:+ " = " +:+ rest)).
    cbn [span_word]. by rewrite Ha, IH.
Qed.

Lemma substring_all (s : string) : substring 0 (String.length s) s = s.
Proof. induction s as [|a s IH]; [done|]. cbn. by rewrite IH. Qed.

Lemma strip_prefix_separator (rest : string) :
  strip_prefix " = " (" = " +:+ rest) = Some rest.
Proof.
  change (" = " +:+ rest) with (String " " (String "=" (String " " rest))).
  unfold strip_prefix. cbn. rewrite Nat.sub_0_r, substring_all.
  by destruct rest.
Qed.

Lemma rest_of_line_value (value : string) :
  forallb (fun a => negb (Ascii.eqb a "010")) (list_ascii_of_string value) = true ->
  rest_of_line (value +:+ newline) = Some value
  /\ rest_of_line value = Some value.
Proof.
  induction value as [|a value IH]; intros Hv; [done|].
  cbn [list_ascii_of_string forallb] in Hv.
  apply andb_true_iff in Hv as [Ha Hv]. apply negb_true_iff in Ha.
  destruct (IH Hv) as [IH1 IH2].
  change (String a value +:+ newline) with (String a (value +:+ newline)).
  cbn [rest_of_line]. by rewrite Ha, IH1, IH2.
Qed.

(** X14. A line [key = value] of the settings file, with or without its
    line end, is read back as the pair of the key and the value, for every
    key of word characters and every value on one line. *)
Theorem match_setting_reads_line (key value : string) :
  forallb is_word_char (list_ascii_of_string key) = true ->
  forallb (fun a => negb (Ascii.eqb a "010")) (list_ascii_of_string value) = true ->
  match_setting (key +:+ " = " +:+ value +:+ newline) = Some (key, value)
  /\ match_setting (key +:+ " = " +:+ value) = Some (key, value).
Proof.
  intros Hk Hv. destruct (rest_of_line_value value Hv) as [H1 H2].
  unfold match_setting. rewrite !span_word_key by done.
  rewrite !strip_prefix_separator. cbn [mbind option_bind].
  by rewrite H1, H2.
Qed.

Lemma match_setting_reads_line_witness :
  match_setting ("ScanGridY = 2" +:+ newline) = Some ("ScanGridY", "2")
  /\ match_setting "ScanGridY = 2" = Some ("ScanGridY", "2").
Proof.
  apply (match_setting_reads_line "ScanGridY" "2"); reflexivity.
Defined.

Lemma on_disk_after_glob (w : world) (pattern : string) :
  on_disk {| now := now w; timeline := timeline w;
             trace := (trace w ++ [EvGlob pattern])%list |}
  = on_disk w.
Proof.
  unfold on_disk. cbn [now timeline trace].
  apply list_filter_iff. intros e.
  unfold was_removed. rewrite existsb_app. cbn. by rewrite !orb_false_r.
Qed.



(** What [_parse_acquisition_settings] answers when the first scan finds a
    settings file: it depends on the two keys it looks up, in this order; the
    dictionary is stored before they are looked up. *)
Lemma parse_settings_cases
    (fuel : nat) (st : pstate) (p f : string) (fs : list string) (e : entry) :
  self st !! "path" = Some (VStr p) ->
  glob_paths (path_join p "*_AcquireSettings.txt") (env st) = f :: fs ->
  find (fun e => String.eqb (e_path e) f) (on_disk (env st)) = Some e ->
  _parse_acquisition_settings fuel st
  = (match foldl store_setting ∅ (e_lines e) !! "ScanGridY",
           foldl store_setting ∅ (e_lines e) !! "StackDepths" with
     | None, _ => Raise (KeyError "ScanGridY")
     | Some _, None => Raise (KeyError "StackDepths")
     | Some v, Some _ => Ok (v, v)
     end,
     {| self := <["acq_param" := VDict (foldl store_setting ∅ (e_lines e))]>
                  (self st);
        klass := klass st;
        env := {| now := now (env st); timeline := timeline (env st);
                  trace := (trace (env st)
                            ++ [EvGlob (path_join p "*_AcquireSettings.txt")])%list |} |}).
Proof.
  intros Hp Hg Hf. unfold _parse_acquisition_settings. repeat mstep.
  rewrite Hg.
  replace (wait_for_settings fuel (f :: fs)) with (mret (M := M) (f :: fs))
    by (by destruct fuel).
  mstep.
  cbn [fmap list_fmap lookup list_lookup mbind outcome_bind as_path].
  repeat mstep.
  unfold mbind at 1, M_bind at 1, readlines at 1. cbn [env].
  rewrite on_disk_after_glob, Hf. mstep.
  unfold dict_get.
  destruct (foldl store_setting ∅ (e_lines e) !! "ScanGridY") as [v|];
    [|by mstep].
  do 2 mstep.
  destruct (foldl store_setting ∅ (e_lines e) !! "StackDepths") as [n|];
    by mstep.
Qed.



(** X16. A grid size that is not written as a plain integer stops the
    constructor: when the settings file is ASCII text that gives [ScanGridY]
    a value stored as a string, such as [2.0], and has a [StackDepths] line,
    [__init__] raises [TypeError] at [self.nrow * self.ncol], the product
    of two strings. *)
Theorem init_rejects_text_grid
    (fuel : nat) (path : string) (n_channels : Z) (w : world)
    (f : string) (fs : list string) (e : entry) (s : string) (n : val) :
  glob_paths (path_join (path_join path "0001") "*_AcquireSettings.txt") w
  = f :: fs ->
  find (fun e => String.eqb (e_path e) f) (on_disk w) = Some e ->
  (forall l, l ∈ e_lines e -> is_ascii l = true) ->
  foldl store_setting ∅ (e_lines e) !! "ScanGridY" = Some (VStr s) ->
  foldl store_setting ∅ (e_lines e) !! "StackDepths" = Some n ->
  fst (clearscopeRunningPipeline___init__ fuel path n_channels
         (new cls_clearscope w))
  = Raise (TypeError "can't multiply sequence by non-int of type 'str'").
Proof.
  intros Hg Hf _ Hy Hd.
  unfold clearscopeRunningPipeline___init__, new, call_clearscope.
  do 2 mstep. rewrite bind_assoc. mstep.
  match goal with
  | |- fst ((_ ≫= _) ?st0) = _ =>
      pose proof (parse_settings_cases fuel st0 (path_join path "0001") f fs e
                    ltac:(attr) Hg Hf) as Hparse
  end.
  rewrite Hy, Hd in Hparse. rewrite (bind_Ok _ _ _ _ _ Hparse).
  repeat mstep. reflexivity.
Qed.

Lemma init_rejects_text_grid_witness :
  fst (clearscopeRunningPipeline___init__ 0 "acq" 1
         (new cls_clearscope
            (world_of (still [file "acq/0001/run_AcquireSettings.txt"
                                ["ScanGridY = 2.0" +:+ newline;
                                 "StackDepths = 100" +:+ newline]]))))
  = Raise (TypeError "can't multiply sequence by non-int of type 'str'").
Proof.
  apply (init_rejects_text_grid 0 "acq" 1
           (world_of (still [file "acq/0001/run_AcquireSettings.txt"
                               ["ScanGridY = 2.0" +:+ newline;
                                "StackDepths = 100" +:+ newline]]))
           "acq/0001/run_AcquireSettings.txt" []
           (file "acq/0001/run_AcquireSettings.txt"
                 ["ScanGridY = 2.0" +:+ newline; "StackDepths = 100" +:+ newline])
           "2.0" (VFloat 100));
    try reflexivity.
  intros l Hin. apply list_elem_of_In in Hin. cbn in Hin.
  by destruct Hin as [<-|[<-|[]]].
Defined.

(** ** The end of the wait for the settings *)

Lemma glob_paths_settings_elem (a : string) (w : world) (e : entry) :
  e ∈ timeline w (now w) ->
  was_removed (e_path e) (trace w) = false ->
  wildcard_match (path_join a "*_AcquireSettings.txt") true (e_path e) = true ->
  e_path e ∈ glob_paths (path_join a "*_AcquireSettings.txt") w.
Proof.
  intros He Hr Hm. unfold glob_paths. rewrite strip_trailing_slash_settings.
  apply list_elem_of_In, in_map, list_elem_of_In.
  apply list_elem_of_filter. split; [done|].
  unfold on_disk. apply list_elem_of_filter. split; [|done].
  by rewrite Hr.
Qed.

Lemma wait_for_settings_found (fuel : nat) (f : string) (fs : list string) :
  wait_for_settings fuel (f :: fs) = mret (f :: fs).
Proof. by destruct fuel. Qed.

(** X17. The wait for the settings ends at the first retry whose scan of
    [{path}/0001] finds a settings file: when such a file shows up [k + 1]
    seconds after the wait began, and none before, the wait returns a list
    that holds it after [k + 1] retries, provided the loop may run that
    long; the pipeline object is left as it is. *)
Theorem wait_for_settings_finds
    (root : string) (k more : nat) (st : pstate) (e : entry) :
  self st !! "path" = Some (VStr root) ->
  (forall j x, (j < k)%nat ->
     x ∈ timeline (env st) (now (env st) + S j) ->
     wildcard_match (path_join (path_join root "0001") "*_AcquireSettings.txt")
                    true (e_path x) = false) ->
  e ∈ timeline (env st) (now (env st) + S k) ->
  wildcard_match (path_join (path_join root "0001") "*_AcquireSettings.txt")
                 true (e_path e) = true ->
  was_removed (e_path e) (trace (env st)) = false ->
  exists files st',
    wait_for_settings (S k + more) [] st = (Ok files, st')
    /\ e_path e ∈ files
    /\ now (env st') = (now (env st) + S k)%nat
    /\ trace (env st') = (trace (env st) ++ retry_events root (S k))%list
    /\ self st' = self st.
Proof.
  revert st. induction k as [|k IH]; intros st Hp Hnone He Hm Hr.
  - cbn [Nat.add wait_for_settings]. repeat mstep.
    match goal with
    | |- context [ glob_paths ?pat ?w1 ] =>
        assert (e_path e ∈ glob_paths pat w1) as Hin
    end.
    { apply glob_paths_settings_elem; cbn [now timeline trace]; [|  |done].
      - by rewrite Nat.add_1_r in He.
      - rewrite was_removed_app; done. }
    destruct (glob_paths _ _) as [|f fs] eqn:Hg; [by apply elem_of_nil in Hin|].
    rewrite wait_for_settings_found.
    eexists _, _. split; [reflexivity|]. cbn [env now trace self].
    repeat split; [done|lia|].
    unfold retry_events. cbn [replicate concat]. by rewrite <- !app_assoc.
  - cbn [Nat.add wait_for_settings]. repeat mstep.
    rewrite glob_paths_settings_nil.
    2:{ cbn [timeline now]. intros x Hx. apply (Hnone 0%nat x); [lia|].
        by rewrite Nat.add_1_r. }
    set (st1 := {| self := self st |}).
    destruct (IH st1) as (files & st' & E & Hin & Hnow & Htr & Hself).
    + exact Hp.
    + intros j x Hj Hx. apply (Hnone (S j) x); [lia|].
      cbn [st1 env now timeline] in Hx.
      by replace (now (env st) + S (S j))%nat with (S (now (env st)) + S j)%nat
        by lia.
    + cbn [st1 env now timeline].
      by replace (S (now (env st)) + S k)%nat with (now (env st) + S (S k))%nat
        by lia.
    + exact Hm.
    + cbn [st1 env trace]. rewrite <- app_assoc. by rewrite was_removed_app.
    + exists files, st'. split; [exact E|]. split; [exact Hin|].
      split; [rewrite Hnow; cbn [st1 env now]; lia|].
      split; [|exact Hself].
      rewrite Htr. unfold st1, retry_events. cbn [env trace replicate concat].
      by rewrite <- !app_assoc.
Qed.

Lemma wait_for_settings_finds_witness :
  let st := snd ((_ ← self_set "path" (VStr "acq");
                  self_set "acq_param" VNone)
                   (new cls_clearscope (world_of late_settings))) in
  exists files st',
    wait_for_settings 3 [] st = (Ok files, st')
    /\ "acq/0001/run_AcquireSettings.txt" ∈ files
    /\ now (env st') = 1%nat
    /\ trace (env st') = retry_events "acq" 1
    /\ self st' = self st.
Proof.
  refine (wait_for_settings_finds "acq" 0 2
            (snd ((_ ← self_set "path" (VStr "acq");
                   self_set "acq_param" VNone)
                    (new cls_clearscope (world_of late_settings))))
            settings_3x2 _ _ _ _ _).
  - reflexivity.
  - intros j x Hj. lia.
  - cbn. by left.
  - reflexivity.
  - reflexivity.
Defined.

(** ** The cursor and the run loops *)

(** X18. With an attribute [n_col] that holds the number of columns, which
    [__init__] does not set, [_update_next_tile] moves the cursor to the
    raster successor of the current tile: the next column, or the first
    column of the next row after the last column. *)
Theorem update_next_tile_raster (st : pstate) (row col n_col : Z) :
  self st !! "current_tile" = Some (VList [VInt row; VInt col]) ->
  self st !! "n_col" = Some (VInt n_col) ->
  0 <= col < n_col ->
  exists st' row' col',
    _update_next_tile st = (Ok tt, st')
    /\ self st' !! "next_tile" = Some (VList [VInt row'; VInt col'])
    /\ 0 <= col' < n_col
    /\ row' * n_col + col' = row * n_col + col + 1.
Proof.
  intros Hc Hn Hcol.
  destruct (update_next_tile_with_n_col st row col n_col Hc Hn) as (st' & E & H).
  destruct (col =? n_col - 1) eqn:Hlast.
  - apply Z.eqb_eq in Hlast. exists st', (row + 1), 0. repeat split; try done; lia.
  - apply Z.eqb_neq in Hlast. exists st', row, (col + 1).
    repeat split; try done; lia.
Qed.

Lemma update_next_tile_raster_witness :
  let st := snd ((_ ← self_set "n_col" (VInt 2);
                  self_set "current_tile" (VList [VInt 0; VInt 1]))
                   (default_pipeline "acq" raster_2x2)) in
  exists st' row' col',
    _update_next_tile st = (Ok tt, st')
    /\ self st' !! "next_tile" = Some (VList [VInt row'; VInt col'])
    /\ 0 <= col' < 2
    /\ row' * 2 + col' = 0 * 2 + 1 + 1.
Proof.
  apply (update_next_tile_raster
           (snd ((_ ← self_set "n_col" (VInt 2);
                  self_set "current_tile" (VList [VInt 0; VInt 1]))
                   (default_pipeline "acq" raster_2x2))) 0 1 2);
    [reflexivity|reflexivity|lia].
Defined.

Lemma more_tiles_pending (st : pstate) (nt : val) :
  self st !! "tile_processed" = Some (VInt 0) ->
  self st !! "n_tiles" = Some nt ->
  py_lt (VInt 0) nt = Ok true ->
  more_tiles st = (Ok true, st).
Proof.
  intros Hp Hn Hlt. unfold more_tiles. repeat mstep. by rewrite Hlt.
Qed.

(** X19. While no file of the next tile is found, the default run only
    waits: after any number of iterations it has not returned, each iteration
    was one scan and one second of sleep, and the pipeline object is as it
    was. *)
Theorem default_run_waits
    (fuel : nat) (st : pstate) (p : string) (a b : Z) (nt : val) :
  klass st = cls_base ->
  self st !! "path" = Some (VStr p) ->
  self st !! "next_tile" = Some (VList [VInt a; VInt b]) ->
  self st !! "tile_processed" = Some (VInt 0) ->
  self st !! "n_tiles" = Some nt ->
  py_lt (VInt 0) nt = Ok true ->
  never_found (path_join p (pretty a +:+ "_" +:+ pretty b +:+ ".tif"))
              (timeline (env st)) ->
  exists st',
    run fuel st = (OutOfFuel, st')
    /\ self st' = self st
    /\ now (env st') = (now (env st) + fuel)%nat
    /\ trace (env st')
       = (trace (env st)
          ++ idle_events (path_join p (pretty a +:+ "_" +:+ pretty b +:+ ".tif"))
                         fuel)%list.
Proof.
  destruct st as [s c w]. cbn [klass self env]. intros -> Hp Hn Ht Hm Hlt Hnf.
  unfold run. mstep.
  remember (timeline w) as tl eqn:Htl. revert w Htl.
  induction fuel as [|fuel IH]; intros w Htl.
  - eexists. split; [reflexivity|]. cbn [self env now trace idle_events replicate concat].
    rewrite app_nil_r. repeat split. lia.
  - cbn [baseRunningPipeline_run].
    rewrite (bind_Ok _ _ _ _ _
               (more_tiles_pending (Build_pstate s cls_base w) nt Ht Hm Hlt)).
    unfold call__is_new_tile_available. rewrite bind_assoc. mstep.
    unfold baseRunningPipeline__is_new_tile_available. repeat mstep.
    rewrite (Hnf w (eq_sym Htl)). repeat mstep.
    match goal with
    | |- context [ baseRunningPipeline_run fuel {| env := ?w1 |} ] =>
        destruct (IH w1) as (st' & E & Hs & Hnow & Htr); [exact Htl|]
    end.
    exists st'. split; [exact E|]. split; [exact Hs|].
    split; [rewrite Hnow; cbn [now]; lia|].
    rewrite Htr. cbn [trace idle_events replicate concat].
    by rewrite <- !app_assoc.
Qed.

Lemma default_run_waits_witness :
  exists st',
    run 3 (default_pipeline "acq" (still [])) = (OutOfFuel, st')
    /\ self st' = self (default_pipeline "acq" (still []))
    /\ now (env st') = 3%nat
    /\ trace (env st') = idle_events "acq/0_0.tif" 3.
Proof.
  refine (default_run_waits 3 (default_pipeline "acq" (still [])) "acq" 0 0 (VInt 4)
            _ _ _ _ _ _ _); try reflexivity.
  intros w Hw. unfold glob_paths, on_disk. rewrite Hw. reflexivity.
Defined.

(** X20. The same for the clearscope run: with an empty buffer and no tile
    directory found, it only waits, and the buffer stays empty. *)
Theorem clearscope_run_waits
    (fuel : nat) (st : pstate) (p : string) (nt : val) :
  klass st = cls_clearscope ->
  self st !! "path" = Some (VStr p) ->
  buffer_of st = Some (VList []) ->
  self st !! "tile_processed" = Some (VInt 0) ->
  self st !! "n_tiles" = Some nt ->
  py_lt (VInt 0) nt = Ok true ->
  never_found (path_join p "000000_*_*c/") (timeline (env st)) ->
  exists st',
    run fuel st = (OutOfFuel, st')
    /\ self st' = self st
    /\ now (env st') = (now (env st) + fuel)%nat
    /\ trace (env st')
       = (trace (env st) ++ idle_events (path_join p "000000_*_*c/") fuel)%list.
Proof.
  destruct st as [s c w]. unfold buffer_of. cbn [klass self env].
  intros -> Hp Hb Ht Hm Hlt Hnf.
  unfold run. mstep.
  remember (timeline w) as tl eqn:Htl. revert w Htl.
  induction fuel as [|fuel IH]; intros w Htl.
  - eexists. split; [reflexivity|]. cbn [self env now trace idle_events replicate concat].
    rewrite app_nil_r. repeat split. lia.
  - cbn [clearscopeRunningPipeline_run].
    rewrite (bind_Ok _ _ _ _ _
               (more_tiles_pending (Build_pstate s cls_clearscope w) nt Ht Hm Hlt)).
    unfold call__is_new_tile_available. rewrite bind_assoc. mstep.
    unfold clearscopeRunningPipeline__is_new_tile_available, buffer_extend.
    repeat mstep.
    rewrite (Hnf w (eq_sym Htl)). cbn [fmap list_fmap app].
    repeat mstep.
    rewrite (insert_id s "buffer_tile_to_be_processed" (VList []) Hb).
    repeat mstep.
    match goal with
    | |- context [ clearscopeRunningPipeline_run fuel {| env := ?w1 |} ] =>
        destruct (IH w1) as (st' & E & Hs & Hnow & Htr); [exact Htl|]
    end.
    exists st'. split; [exact E|]. split; [exact Hs|].
    split; [rewrite Hnow; cbn [now]; lia|].
    rewrite Htr. cbn [trace idle_events replicate concat].
    by rewrite <- !app_assoc.
Qed.

Lemma clearscope_run_waits_witness :
  let st := clearscope_pipeline (still [settings_3x2]) in
  exists st',
    run 2 st = (OutOfFuel, st')
    /\ self st' = self st
    /\ now (env st') = 2%nat
    /\ trace (env st')
       = (trace (env st) ++ idle_events "acq/0001/000000_*_*c/" 2)%list.
Proof.
  refine (clearscope_run_waits 2 (clearscope_pipeline (still [settings_3x2]))
            "acq/0001" (VFloat 4) _ _ _ _ _ _ _); try reflexivity.
  intros w Hw.
  change (timeline (env (clearscope_pipeline (still [settings_3x2]))))
    with (still [settings_3x2]) in Hw.
  change (map (fun e => e_path e +:+ "/")
            (filter (fun e => e_is_dir e
                              && wildcard_match "acq/0001/000000_*_*c" true (e_path e)
                              = true)
                    (on_disk w)) = []).
  rewrite filter_none; [reflexivity|].
  unfold on_disk. rewrite Hw. intros e [_ He]%list_elem_of_filter.
  apply list_elem_of_singleton in He as ->. discriminate.
Defined.

(** ** Stitching *)

(** X21. Stitching cannot be used: once [activate_stitching] was called,
    the statements the run loops execute on a tile raise [AttributeError]
    for [_pre_stitch], which no class defines; the count of processed tiles
    does not move.  This holds for both pipelines and any loaded tile. *)
Theorem stitching_stops_processing
    (st : pstate) (p : string) (overlap_h overlap_v : Z) (tile : runningTile) :
  self st !! "path" = Some (VStr p) ->
  self st !! "converter" = Some VNone ->
  (forall st2, load_tile tile st2 = (Ok tile, st2)) ->
  let r := (_ ← activate_stitching overlap_h overlap_v;
            process_tile (Some tile)) st in
  fst r = Raise (AttributeError "_pre_stitch")
  /\ self (snd r) !! "tile_processed" = self st !! "tile_processed"
  /\ trace (env (snd r))
     = (trace (env st) ++ [EvMkdir (path_join p "max_projs")])%list.
Proof.
  intros Hp Hc Hload r. subst r. destruct st as [s c w]. cbn [self] in Hp, Hc.
  unfold activate_stitching, process_tile. repeat mstep.
  rewrite (bind_Ok _ _ _ _ _ (Hload _)). repeat mstep.
  unfold call__pre_stitch. rewrite bind_assoc.
  rewrite bind_bound_method_None by (cbn [klass]; by destruct c).
  cbn [fst snd self env trace]. repeat split.
  by rewrite !lookup_insert_ne.
Qed.

Lemma stitching_stops_processing_witness :
  let r := (_ ← activate_stitching 25 25;
            process_tile (Some (set_data stub_tile ["acq/0_0.tif"])))
             (default_pipeline "acq" raster_2x2) in
  fst r = Raise (AttributeError "_pre_stitch")
  /\ self (snd r) !! "tile_processed" = Some (VInt 0)
  /\ trace (env (snd r)) = [EvMkdir "acq/max_projs"].
Proof.
  refine (stitching_stops_processing (default_pipeline "acq" raster_2x2) "acq"
            25 25 (set_data stub_tile ["acq/0_0.tif"]) _ _ _);
    reflexivity.
Defined.

(** ** Neighbours of a clearscope tile *)

Lemma glob_paths_on_disk (pattern : string) (w w' : world) :
  on_disk w = on_disk w' -> glob_paths pattern w = glob_paths pattern w'.
Proof. unfold glob_paths. by intros ->. Qed.

Lemma mapM_read_file_state (l : list string) (st st' : pstate) (r : outcome (list unit)) :
  mapM read_file l st = (r, st') -> st' = st.
Proof.
  revert r. induction l as [|p l IH]; intros r; [by intros [= _ ->]|].
  cbn [mapM]. unfold mbind at 1, M_bind at 1, read_file at 1.
  destruct (exists_on_disk p (env st)); [|by intros [= _ ->]].
  unfold mbind, M_bind.
  destruct (mapM read_file l st) as [[u|e|] st1] eqn:E;
    intros [= _ <-]; by eapply IH.
Qed.

Lemma load_clearscope_Ok
    (t : runningTile) (p : string) (st st' : pstate) (u : list string) :
  _load_clearscope t p st = (Ok u, st') ->
  u = sorted (glob_paths (path_join (t_path t) "*") (env st))
  /\ on_disk (env st') = on_disk (env st).
Proof.
  unfold _load_clearscope. intros H. mstep_in H. minv H.
  apply mapM_read_file_state in E as ->. injection H as <- <-.
  split; [done|]. cbn [env]. apply on_disk_after_glob.
Qed.

Lemma mapM_load_clearscope
    (t : runningTile) (ps : list string) (st st' : pstate)
    (us : list (list string)) :
  str_is (t_type t) "clearscope" = true ->
  mapM (_load_data t) ps st = (Ok us, st') ->
  us = replicate (length ps)
         (sorted (glob_paths (path_join (t_path t) "*") (env st))).
Proof.
  intros Ht%str_is_eq. revert st us.
  induction ps as [|p ps IH]; intros st us H.
  - by injection H as <- <-.
  - cbn [mapM] in H. do 2 minv H. injection H as <- <-.
    unfold _load_data in E. rewrite Ht in E.
    cbn [str_is String.eqb Ascii.eqb Bool.eqb andb] in E.
    apply load_clearscope_Ok in E as [-> Hd].
    apply IH in E0 as ->. cbn [length replicate].
    by rewrite (glob_paths_on_disk _ _ _ Hd).
Qed.

(** X22. [_load_clearscope] lists the directory of the tile itself, not the
    path it is given.  So the neighbours of a ['clearscope'] tile are never
    read: after [load_neighbors], each entry of [data_neighbors] is the
    sorted listing of the tile's own directory, whatever the paths of the
    neighbours are. *)
Theorem clearscope_neighbors_are_the_tile
    (t : runningTile) (x x' : tileAux) (ps : list string) (st st' : pstate) :
  str_is (t_type t) "clearscope" = true ->
  data_neighbors x = None ->
  neighbors_path x = Some ps ->
  load_neighbors t x st = (Ok x', st') ->
  data_neighbors x'
  = Some (replicate (length ps)
            (sorted (glob_paths (path_join (t_path t) "*") (env st)))).
Proof.
  intros Ht Hx Hps H. unfold load_neighbors in H. rewrite Hx, Hps in H.
  assert (str_is (t_type t) "apr" = false) as Ha
    by (by rewrite (str_is_eq _ _ Ht)).
  rewrite Ha in H. cbn [iterate] in H. mstep_in H. minv H. injection H as <- <-.
  cbn [data_neighbors]. f_equal. by eapply mapM_load_clearscope.
Qed.

Lemma clearscope_neighbors_are_the_tile_witness :
  let t := {| t_path := "acq/0001/000000_000001___0c/"; t_row := 0; t_col := 0;
              t_type := VStr "clearscope"; t_frame_size := 2048;
              t_folder_root := VStr "acq/0001"; t_channel := Some 0;
              t_n_channels := VInt 1; t_data := None; t_apr := None |} in
  let st := clearscope_pipeline
              (still [settings_3x2;
                      file "acq/0001/000000_000001___0c/z0.tif" [];
                      file "acq/0001/000000_000002___0c/z0.tif" []]) in
  let x := tile_aux_init (Some ["acq/0001/000000_000002___0c/"]) in
  data_neighbors (match fst (load_neighbors t x st) with
                  | Ok x' => x'
                  | _ => x
                  end)
  = Some [["acq/0001/000000_000001___0c/z0.tif"]].
Proof.
  intros t st x.
  refine (clearscope_neighbors_are_the_tile t x _
            ["acq/0001/000000_000002___0c/"] st _ _ _ _ _); reflexivity.
Defined.
